(** * Spatial Needleman-Wunsch docking: the placement-scoring core

    A shallow embedding of the [spatial_docking] package
    ([alignment.py], [boltzmann.py], [pareto.py], [conformers.py],
    [scoring.py] and the [Voxel] / [SpatialDocking] classes of [core.py])
    together with the properties its specification states about it.

    - Python floats are IEEE 754 binary64 values; they are modelled by
      Rocq's primitive floats, whose operations are the same binary64
      operations, and reasoned about through their specification
      ([FloatAxioms]).  [np.exp], which is numpy's, is a parameter.
    - Python ints are modelled by [Z].
    - Dictionaries are association lists in insertion order, the order in
      which Python iterates over them.
    - Grid keys are triples of integer lattice coordinates (the
      repository's generators use floats that hold such integers).
    - A call that can raise returns an [outcome]; logging is left out.
    - The two functions of [alignment.py] are embedded a second time as
      calls that work on references, in an interpreter state that holds
      the shared dictionaries and numpy's generator: what repeated
      invocations can and cannot see of each other is stated there. *)

From Stdlib Require Import List ZArith Bool String Lia.
From Stdlib Require Import Floats.
From Stdlib Require Import Reals Lra.
Import ListNotations.

Set Warnings "-inexact-float".

Local Open Scope Z_scope.

(** ** Outcomes of Python calls *)

(** The exceptions the modelled code can raise. *)
Inductive exn : Type :=
| ValueError (msg : string)
| TypeError (msg : string)
| ZeroDivisionError (msg : string).

(** A call either returns a value or raises. *)
Inductive outcome (A : Type) : Type :=
| Returned (a : A)
| Raised (e : exn).

Arguments Returned {A} a.
Arguments Raised {A} e.

Definition bind {A B : Type} (m : outcome A) (k : A -> outcome B) : outcome B :=
  match m with
  | Returned a => k a
  | Raised e => Raised e
  end.

Notation "x <- m ;; k" := (bind m (fun x => k))
  (at level 61, m at next level, right associativity).

Definition raises {A : Type} (m : outcome A) : Prop :=
  exists e, m = Raised e.

(** ** Data model *)

(** Grid keys are 3-tuples of integer lattice coordinates. *)
Definition position : Type := Z * Z * Z.

Definition position_eqb (p q : position) : bool :=
  let '(px, py, pz) := p in
  let '(qx, qy, qz) := q in
  (px =? qx) && (py =? qy) && (pz =? qz).

(** [core.py], class [Voxel] (a dataclass): its fields. *)
Record Voxel : Type := mkVoxel {
  voxel_position : position;
  property_type : string;
  accessibility : float;
  flexibility : float;
  nearby_residue : option string
}.

(** A Python [dict], as its items in insertion order. *)
Definition dict (K V : Type) : Type := list (K * V).

Section Dict.
Context {K V : Type}.
Variable eqb : K -> K -> bool.

(** [d[k]] when [k in d]; [None] when [k not in d]. *)
Fixpoint dict_get (d : dict K V) (k : K) : option V :=
  match d with
  | [] => None
  | (k', v) :: d' => if eqb k' k then Some v else dict_get d' k
  end.

(** [d[k] = v]: the value of an existing key is replaced in place, a new
    key is added at the end. *)
Fixpoint dict_set (d : dict K V) (k : K) (v : V) : dict K V :=
  match d with
  | [] => [(k, v)]
  | (k', v') :: d' =>
      if eqb k' k then (k', v) :: d' else (k', v') :: dict_set d' k v
  end.

End Dict.

Definition dict_keys {K V : Type} (d : dict K V) : list K := map fst d.

Definition dict_values {K V : Type} (d : dict K V) : list V := map snd d.

Definition VoxelGrid : Type := dict position Voxel.

Definition grid_get (g : VoxelGrid) (p : position) : option Voxel :=
  dict_get position_eqb g p.

Definition pair_eqb (p q : string * string) : bool :=
  (String.eqb (fst p) (fst q)) && (String.eqb (snd p) (snd q)).

Definition CompatibilityMatrix : Type := dict (string * string) float.

Definition matrix_get (m : CompatibilityMatrix) (p : string * string) : option float :=
  dict_get pair_eqb m p.

(** Conversion of a Python int to a float, as [float / int], [int * float]
    and [np.sqrt(int)] perform it: the nearest binary64 value.  Exact below
    2^53 and correctly rounded below 2^63; the ints converted here are
    lengths and loop indices, which stay below that. *)
Definition float_of_Z (z : Z) : float :=
  if z <? 0 then (- of_uint63 (Uint63.of_Z (- z)))%float
  else of_uint63 (Uint63.of_Z z).

(** ** [alignment.py]: [calculate_placement_score] (lines 6-24) and
       [spatial_alignment] (lines 26-38) *)

(** [tuple(mol_pos[i] + offset[i] for i in range(3))] *)
Definition translate (mol_pos offset : position) : position :=
  let '(x, y, z) := mol_pos in
  let '(ox, oy, oz) := offset in
  (x + ox, y + oy, z + oz).

(** One iteration of the loop of [calculate_placement_score]; the state is
    [(score, overlap_count)]. *)
Definition placement_step (cavity_grid : VoxelGrid) (offset : position)
    (compatibility_matrix : CompatibilityMatrix)
    (st : float * Z) (item : position * Voxel) : float * Z :=
  let '(score, overlap_count) := st in
  let '(mol_pos, mol_voxel) := item in
  let cavity_pos := translate mol_pos offset in
  match grid_get cavity_grid cavity_pos with
  | Some cavity_voxel =>
      let pair := (property_type mol_voxel, property_type cavity_voxel) in
      let reverse_pair := (property_type cavity_voxel, property_type mol_voxel) in
      let score :=
        match matrix_get compatibility_matrix pair with
        | Some v => (score + v)%float
        | None =>
            match matrix_get compatibility_matrix reverse_pair with
            | Some v => (score + v)%float
            | None => score
            end
        end in
      (score, overlap_count + 1)
  | None => (score, overlap_count)
  end.

Definition calculate_placement_score (cavity_grid molecule_grid : VoxelGrid)
    (offset : position) (compatibility_matrix : CompatibilityMatrix) : float :=
  let '(score, overlap_count) :=
    fold_left (placement_step cavity_grid offset compatibility_matrix)
              molecule_grid (0%float, 0) in
  if 0 <? overlap_count
  then (score / float_of_Z overlap_count * PrimFloat.sqrt (float_of_Z overlap_count))%float
  else score.

(** One iteration of the loop of [spatial_alignment]; the state is
    [(best_score, best_offset)]. *)
Definition alignment_step (cavity_grid molecule_grid : VoxelGrid)
    (compatibility_matrix : CompatibilityMatrix) (gap_penalty : float)
    (st : float * position) (cavity_pos : position) : float * position :=
  let '(best_score, best_offset) := st in
  let placement_score :=
    calculate_placement_score cavity_grid molecule_grid cavity_pos compatibility_matrix in
  let score := (placement_score + gap_penalty)%float in
  if (best_score <? score)%float then (score, cavity_pos) else (best_score, best_offset).

Definition spatial_alignment (cavity_grid molecule_grid : VoxelGrid)
    (compatibility_matrix : CompatibilityMatrix) (gap_penalty : float)
    : float * position :=
  let cavity_positions := dict_keys cavity_grid in
  fold_left (alignment_step cavity_grid molecule_grid compatibility_matrix gap_penalty)
            cavity_positions (neg_infinity, (0, 0, 0)).

(** ** [alignment.py] again: the two functions as calls in an interpreter

    A call does not receive the contents of its dictionaries: it receives
    references to mutable objects that the caller, and every later call,
    share, and it runs in an interpreter that holds other state as well,
    such as numpy's global generator ([alignment.py] imports numpy).  What
    one invocation leaves behind is what the next one finds. *)

(** The state an invocation can read and write: the dictionaries of voxels
    and the compatibility matrices on the heap, by address, and the state
    of [np.random]. *)
Record World (rng : Type) : Type := mkWorld {
  grids : nat -> VoxelGrid;
  matrices : nat -> CompatibilityMatrix;
  np_random_state : rng
}.

Arguments mkWorld {rng} grids matrices np_random_state.
Arguments grids {rng} w address.
Arguments matrices {rng} w address.
Arguments np_random_state {rng} w.

(** How a statement completes: normally, or with the [KeyError] of a
    subscript [d[k]] whose key is missing (the key is left out). *)
Inductive completion (A : Type) : Type :=
| Normal (a : A)
| KeyError.

Arguments Normal {A} a.
Arguments KeyError {A}.

Definition action (rng A : Type) : Type := World rng -> completion A * World rng.

Definition unit_action {rng A : Type} (a : A) : action rng A :=
  fun w => (Normal a, w).

Definition then_action {rng A B : Type} (m : action rng A)
    (k : A -> action rng B) : action rng B :=
  fun w =>
    match m w with
    | (Normal a, w') => k a w'
    | (KeyError, w') => (KeyError, w')
    end.

Notation "x <~ m ;; k" := (then_action m (fun x => k))
  (at level 61, m at next level, right associativity).

(** [list(g.keys())] *)
Definition grid_keys {rng : Type} (g : nat) : action rng (list position) :=
  fun w => (Normal (dict_keys (grids w g)), w).

(** [g.items()], as the loop over it reads them. *)
Definition grid_items {rng : Type} (g : nat) : action rng (list (position * Voxel)) :=
  fun w => (Normal (grids w g), w).

(** [pos in g] *)
Definition grid_contains {rng : Type} (g : nat) (pos : position) : action rng bool :=
  fun w =>
    (Normal match grid_get (grids w g) pos with
            | Some _ => true
            | None => false
            end, w).

(** [g[pos]] *)
Definition grid_getitem {rng : Type} (g : nat) (pos : position) : action rng Voxel :=
  fun w =>
    (match grid_get (grids w g) pos with
     | Some voxel => Normal voxel
     | None => KeyError
     end, w).

(** [g[pos] = voxel], which [alignment.py] never executes; [core.py] does
    (line 334). *)
Definition grid_setitem {rng : Type} (g : nat) (pos : position) (voxel : Voxel)
    : action rng unit :=
  fun w =>
    (Normal tt,
     mkWorld (fun address =>
                if Nat.eqb address g
                then dict_set position_eqb (grids w address) pos voxel
                else grids w address)
             (matrices w) (np_random_state w)).

(** [pair in m] *)
Definition matrix_contains {rng : Type} (m : nat) (pair : string * string)
    : action rng bool :=
  fun w =>
    (Normal match matrix_get (matrices w m) pair with
            | Some _ => true
            | None => false
            end, w).

(** [m[pair]] *)
Definition matrix_getitem {rng : Type} (m : nat) (pair : string * string)
    : action rng float :=
  fun w =>
    (match matrix_get (matrices w m) pair with
     | Some v => Normal v
     | None => KeyError
     end, w).

(** A [for] loop whose body acts on the interpreter. *)
Fixpoint for_each {rng S X : Type} (l : list X) (body : S -> X -> action rng S)
    (s : S) : action rng S :=
  match l with
  | [] => unit_action s
  | x :: l' => s' <~ body s x ;; for_each l' body s'
  end.

(** The body of the loop of [calculate_placement_score] (lines 11-20). *)
Definition placement_step_call {rng : Type} (cavity_grid : nat) (offset : position)
    (compatibility_matrix : nat) (st : float * Z) (item : position * Voxel)
    : action rng (float * Z) :=
  let '(score, overlap_count) := st in
  let '(mol_pos, mol_voxel) := item in
  let cavity_pos := translate mol_pos offset in
  present <~ grid_contains cavity_grid cavity_pos ;;
  if present : bool then
    cavity_voxel <~ grid_getitem cavity_grid cavity_pos ;;
    let pair := (property_type mol_voxel, property_type cavity_voxel) in
    let reverse_pair := (property_type cavity_voxel, property_type mol_voxel) in
    has_pair <~ matrix_contains compatibility_matrix pair ;;
    score <~ (if has_pair : bool then
                v <~ matrix_getitem compatibility_matrix pair ;;
                unit_action (score + v)%float
              else
                has_reverse <~ matrix_contains compatibility_matrix reverse_pair ;;
                if has_reverse : bool then
                  v <~ matrix_getitem compatibility_matrix reverse_pair ;;
                  unit_action (score + v)%float
                else unit_action score) ;;
    unit_action (score, overlap_count + 1)
  else unit_action (score, overlap_count).

(** [calculate_placement_score] (lines 6-24), called with references. *)
Definition calculate_placement_score_call {rng : Type}
    (cavity_grid molecule_grid : nat) (offset : position)
    (compatibility_matrix : nat) : action rng float :=
  items <~ grid_items molecule_grid ;;
  st <~ for_each items (placement_step_call cavity_grid offset compatibility_matrix)
                 (0%float, 0) ;;
  let '(score, overlap_count) := st in
  unit_action
    (if 0 <? overlap_count
     then (score / float_of_Z overlap_count
           * PrimFloat.sqrt (float_of_Z overlap_count))%float
     else score).

(** The body of the loop of [spatial_alignment] (lines 32-36). *)
Definition alignment_step_call {rng : Type} (cavity_grid molecule_grid : nat)
    (compatibility_matrix : nat) (gap_penalty : float)
    (st : float * position) (cavity_pos : position)
    : action rng (float * position) :=
  let '(best_score, best_offset) := st in
  placement_score <~ calculate_placement_score_call cavity_grid molecule_grid
                       cavity_pos compatibility_matrix ;;
  let score := (placement_score + gap_penalty)%float in
  if (best_score <? score)%float then unit_action (score, cavity_pos)
  else unit_action (best_score, best_offset).

(** [spatial_alignment] (lines 26-38), called with references. *)
Definition spatial_alignment_call {rng : Type} (cavity_grid molecule_grid : nat)
    (compatibility_matrix : nat) (gap_penalty : float)
    : action rng (float * position) :=
  cavity_positions <~ grid_keys cavity_grid ;;
  for_each cavity_positions
           (alignment_step_call cavity_grid molecule_grid compatibility_matrix
                                gap_penalty)
           (neg_infinity, (0, 0, 0)).

(** ** [pareto.py]: [pareto_optimal_docking] (lines 4-21) *)

(** An objective is called as [func(cavity_grid, molecule_grid, position)]. *)
Definition objective : Type := VoxelGrid -> VoxelGrid -> position -> float.

(** [{name: func(cavity_grid, molecule_grid, position)
      for name, func in objectives.items()}] *)
Definition evaluate_objectives (objectives : dict string objective)
    (cavity_grid molecule_grid : VoxelGrid) (pos : position) : dict string float :=
  map (fun '(name, func) => (name, func cavity_grid molecule_grid pos)) objectives.

(** [scores[k]].  Every scores dictionary of one run is built from the same
    [objectives], so the key is always present; the default is never used. *)
Definition score_at (scores : dict string float) (k : string) : float :=
  match dict_get String.eqb scores k with
  | Some v => v
  | None => nan
  end.

(** The test of line 14: [all(other_scores[k] >= scores[k] for k in scores)
    and any(other_scores[k] > scores[k] for k in scores)]. *)
Definition dominates (other_scores scores : dict string float) : bool :=
  forallb (fun k => (score_at scores k <=? score_at other_scores k)%float)
          (dict_keys scores)
  && existsb (fun k => (score_at scores k <? score_at other_scores k)%float)
             (dict_keys scores).

Definition solution : Type := position * dict string float.

(** One iteration of the loop of [pareto_optimal_docking]; the state is
    [(pareto_frontier, all_solutions)]. *)
Definition pareto_step (cavity_grid molecule_grid : VoxelGrid)
    (objectives : dict string objective)
    (st : list solution * list solution) (pos : position)
    : list solution * list solution :=
  let '(pareto_frontier, all_solutions) := st in
  let scores := evaluate_objectives objectives cavity_grid molecule_grid pos in
  (* [all_solutions[:-1]] after the append is the list before it *)
  let is_dominated :=
    existsb (fun other => dominates (snd other) scores) all_solutions in
  let all_solutions := all_solutions ++ [(pos, scores)] in
  if is_dominated then (pareto_frontier, all_solutions)
  else (pareto_frontier ++ [(pos, scores)], all_solutions).

Definition pareto_run (cavity_grid molecule_grid : VoxelGrid)
    (objectives : dict string objective) : list solution * list solution :=
  fold_left (pareto_step cavity_grid molecule_grid objectives)
            (dict_keys cavity_grid) ([], []).

Definition pareto_optimal_docking (cavity_grid molecule_grid : VoxelGrid)
    (objectives : dict string objective) : list solution :=
  fst (pareto_run cavity_grid molecule_grid objectives).

(** ** [conformers.py]: [generate_torsion_states] (lines 6-9) *)

(** [itertools.product(pool, repeat=n)]: the last component varies fastest. *)
Fixpoint product {A : Type} (pool : list A) (n : nat) : list (list A) :=
  match n with
  | O => [[]]
  | S n' => flat_map (fun x => map (cons x) (product pool n')) pool
  end.

(** [range(n)] *)
Definition range (n : Z) : list Z := map Z.of_nat (seq 0 (Z.to_nat n)).

(** [i * (360 / torsion_steps)] *)
Definition torsion_angle (torsion_steps i : Z) : float :=
  (float_of_Z i * (360 / float_of_Z torsion_steps))%float.

(** The division is inside the comprehension over [range(torsion_steps)]:
    it is evaluated once per [i], with a divisor that is not 0 whenever
    there is an [i], so it never raises.  [itertools.product] refuses a
    negative [repeat]. *)
Definition generate_torsion_states (n_bonds torsion_steps : Z)
    : outcome (list (list float)) :=
  let angles := map (torsion_angle torsion_steps) (range torsion_steps) in
  if n_bonds <? 0 then Raised (ValueError "repeat argument cannot be negative")
  else Returned (product angles (Z.to_nat n_bonds)).

(** ** [boltzmann.py]: [boltzmann_ensemble_docking] (lines 6-19) *)

(** The arithmetic [boltzmann_ensemble_docking] is run with.  The program
    runs with binary64 floats and numpy's [exp]; the same text read with
    real numbers gives the exact values the floats approximate. *)
Record arithmetic (F : Type) : Type := mkArithmetic {
  a_zero : F;
  a_add : F -> F -> F;
  a_mul : F -> F -> F;
  a_opp : F -> F;
  (** [x / y] between Python floats: a zero divisor raises *)
  a_truediv : F -> F -> outcome F;
  (** [x / y] once numpy scalars are involved: IEEE division, no exception *)
  a_div : F -> F -> F;
  (** [np.exp] *)
  a_exp : F -> F;
  (** the literal [0.0019872041] *)
  a_kB : F
}.

Arguments a_zero {F} _.
Arguments a_add {F} _ _ _.
Arguments a_mul {F} _ _ _.
Arguments a_opp {F} _ _.
Arguments a_truediv {F} _ _ _.
Arguments a_div {F} _ _ _.
Arguments a_exp {F} _ _.
Arguments a_kB {F} _.

(** Binary64 arithmetic.  [np.exp] is numpy's, not the repository's: it is a
    parameter. *)
Definition float_arithmetic (np_exp : float -> float) : arithmetic float :=
  {| a_zero := 0%float;
     a_add := PrimFloat.add;
     a_mul := PrimFloat.mul;
     a_opp := PrimFloat.opp;
     a_truediv := fun x y =>
       if (y =? 0)%float then Raised (ZeroDivisionError "float division by zero")
       else Returned (x / y)%float;
     a_div := PrimFloat.div;
     a_exp := np_exp;
     a_kB := 0.0019872041%float |}.


(** A stand-in for [np.exp] with which examples can be run: the Taylor
    polynomial of degree 20 at [x / 2048], squared eleven times, with the
    saturation of [exp] at the ends of its range.  It agrees with [exp] to
    about twelve digits. *)
Fixpoint exp_taylor (n : nat) (k y : float) : float :=
  match n with
  | O => 1%float
  | S n' => (1 + y / k * exp_taylor n' (k + 1) y)%float
  end.

Fixpoint square_n (n : nat) (x : float) : float :=
  match n with
  | O => x
  | S n' => square_n n' (x * x)%float
  end.

Definition exp_approx (x : float) : float :=
  if is_nan x then nan
  else if (709.782712893384 <? x)%float then infinity
  else if (x <? -745.1332191019412)%float then 0%float
  else square_n 11 (exp_taylor 20 1 (x / 2048)).

(** A loop whose body can raise. *)
Fixpoint foldM {S X : Type} (f : S -> X -> outcome S) (l : list X) (s : S)
    : outcome S :=
  match l with
  | [] => Returned s
  | x :: l' => s' <- f s x ;; foldM f l' s'
  end.

(** One iteration of the loop of [boltzmann_ensemble_docking]; the state is
    [(boltzmann_weights, Z)]. *)
Definition boltzmann_step {F : Type} (A : arithmetic F) (kT : F)
    (st : dict position F * F) (item : position * F)
    : outcome (dict position F * F) :=
  let '(boltzmann_weights, Z) := st in
  let '(pos, score) := item in
  let energy := a_opp A score in
  q <- a_truediv A (a_opp A energy) kT ;;
  let weight := a_exp A q in
  Returned (dict_set position_eqb boltzmann_weights pos weight, a_add A Z weight).

Definition boltzmann_ensemble_docking {F : Type} (A : arithmetic F)
    (spatial_alignment_all_paths : VoxelGrid -> VoxelGrid -> dict position F)
    (cavity_grid molecule_grid : VoxelGrid) (temperature : F)
    : outcome (dict position F) :=
  let kT := a_mul A (a_kB A) temperature in
  let all_scores := spatial_alignment_all_paths cavity_grid molecule_grid in
  st <- foldM (boltzmann_step A kT) all_scores ([], a_zero A) ;;
  let '(boltzmann_weights, Z) := st in
  Returned (map (fun '(pos, w) => (pos, a_div A w Z)) boltzmann_weights).

(** ** [scoring.py]: [default_compatibility_matrix] (lines 4-21) *)

Definition default_compatibility_matrix : CompatibilityMatrix :=
  [ (("hydrophobic", "hydrophobic"), 2.0);
    (("hydrophobic", "hydrophilic"), -3.0);
    (("hydrophobic", "polar"), -1.0);
    (("hydrophobic", "empty"), -0.5);
    (("hydrophilic", "hydrophilic"), 1.5);
    (("hydrophilic", "polar"), 1.0);
    (("hydrophilic", "charged_pos"), 0.5);
    (("hydrophilic", "charged_neg"), 0.5);
    (("polar", "polar"), 1.5);
    (("polar", "charged_pos"), 1.0);
    (("polar", "charged_neg"), 1.0);
    (("charged_pos", "charged_neg"), 3.0);
    (("charged_pos", "charged_pos"), -4.0);
    (("charged_neg", "charged_neg"), -4.0);
    (("empty", "empty"), 0.0) ]%string%float.

(** ** [core.py]: [Voxel] (lines 23-46), [DockingResult] (lines 49-69) and
       [SpatialDocking.align] (lines 104-154) *)

(** [0.0 <= x <= 1.0] *)
Definition in_unit_interval (x : float) : bool :=
  ((0 <=? x) && (x <=? 1))%float.

(** [Voxel.__post_init__].  The messages end with the offending value,
    which is left out here. *)
Definition Voxel_post_init (self : Voxel) : outcome unit :=
  if negb (in_unit_interval (accessibility self))
  then Raised (ValueError "Accessibility must be between 0.0 and 1.0")
  else if negb (in_unit_interval (flexibility self))
  then Raised (ValueError "Flexibility must be between 0.0 and 1.0")
  else Returned tt.

(** [Voxel(position, property_type, accessibility, flexibility,
    nearby_residue)]: the generated [__init__] stores the fields and then
    runs [__post_init__]. *)
Definition Voxel_new (pos : position) (ptype : string)
    (acc flex : float) (residue : option string) : outcome Voxel :=
  let self := mkVoxel pos ptype acc flex residue in
  _ <- Voxel_post_init self ;;
  Returned self.

(** The values passed by keyword to [spatial_alignment]. *)
Inductive argument : Type :=
| ArgGrid (g : VoxelGrid)
| ArgMatrix (m : CompatibilityMatrix)
| ArgFloat (f : float)
| ArgInt (z : Z).

(** A function's parameters in order, each with its default if it has one. *)
Definition signature : Type := list (string * option argument).

(** [def spatial_alignment(cavity_grid, molecule_grid, compatibility_matrix,
    gap_penalty=-1.0)] *)
Definition spatial_alignment_signature : signature :=
  [ ("cavity_grid", None);
    ("molecule_grid", None);
    ("compatibility_matrix", None);
    ("gap_penalty", Some (ArgFloat (-1.0)%float)) ]%string.

Definition has_parameter (sig : signature) (name : string) : bool :=
  existsb (fun p => String.eqb (fst p) name) sig.

(** Python's binding of a call made with keyword arguments only: a keyword
    that names no parameter is a [TypeError]; then every parameter takes the
    value passed for it, or else its default, and one with neither is a
    [TypeError]. *)
Fixpoint check_keywords (fname : string) (sig : signature)
    (kwargs : list (string * argument)) : outcome unit :=
  match kwargs with
  | [] => Returned tt
  | (name, _) :: rest =>
      if has_parameter sig name then check_keywords fname sig rest
      else Raised (TypeError
             (fname ++ "() got an unexpected keyword argument '" ++ name ++ "'"))
  end.

Fixpoint fill_parameters (fname : string) (sig : signature)
    (kwargs : list (string * argument)) : outcome (list argument) :=
  match sig with
  | [] => Returned []
  | (name, default) :: rest =>
      match dict_get String.eqb kwargs name, default with
      | Some v, _ | None, Some v =>
          vs <- fill_parameters fname rest kwargs ;; Returned (v :: vs)
      | None, None =>
          Raised (TypeError
            (fname ++ "() missing 1 required positional argument: '" ++ name ++ "'"))
      end
  end.

Definition bind_keywords (fname : string) (sig : signature)
    (kwargs : list (string * argument)) : outcome (list argument) :=
  _ <- check_keywords fname sig kwargs ;;
  fill_parameters fname sig kwargs.

(** A call [spatial_alignment(name=value, ...)]. *)
Definition call_spatial_alignment (kwargs : list (string * argument))
    : outcome (float * position) :=
  args <- bind_keywords "spatial_alignment" spatial_alignment_signature kwargs ;;
  match args with
  | [ArgGrid cavity_grid; ArgGrid molecule_grid;
     ArgMatrix compatibility_matrix; ArgFloat gap_penalty] =>
      Returned (spatial_alignment cavity_grid molecule_grid
                                  compatibility_matrix gap_penalty)
  | _ => Raised (TypeError "spatial_alignment: argument of the wrong type")
  end.

(** class [SpatialDocking]: what [__init__] stores. *)
Record SpatialDocking : Type := mkSpatialDocking {
  grid_spacing : float;
  max_translation : Z;
  gap_penalty : float;
  verbose : bool
}.

(** The [metadata] dictionary of a [DockingResult]. *)
Record Metadata : Type := mkMetadata {
  md_grid_spacing : float;
  md_max_translation : Z;
  md_gap_penalty : float;
  md_cavity_voxels : Z;
  md_molecule_voxels : Z
}.

(** class [DockingResult] (a dataclass). *)
Record DockingResult : Type := mkDockingResult {
  score : float;
  translation : position;
  rotation : option (float * float * float * float);
  result_cavity_grid : option VoxelGrid;
  result_molecule_grid : option VoxelGrid;
  result_compatibility_matrix : option CompatibilityMatrix;
  metadata : option Metadata
}.

(** The keyword arguments of the call of lines 128-133. *)
Definition align_keywords (self : SpatialDocking)
    (cavity_grid molecule_grid : VoxelGrid)
    (compatibility_matrix : CompatibilityMatrix) : list (string * argument) :=
  [ ("cavity_grid", ArgGrid cavity_grid);
    ("molecule_grid", ArgGrid molecule_grid);
    ("compatibility_matrix", ArgMatrix compatibility_matrix);
    ("max_translation", ArgInt (max_translation self)) ]%string.

(** [SpatialDocking.align] (logging left out). *)
Definition SpatialDocking_align (self : SpatialDocking)
    (cavity_grid molecule_grid : VoxelGrid)
    (compatibility_matrix : option CompatibilityMatrix) : outcome DockingResult :=
  let compatibility_matrix :=
    match compatibility_matrix with
    | None => default_compatibility_matrix
    | Some m => m
    end in
  r <- call_spatial_alignment
         (align_keywords self cavity_grid molecule_grid compatibility_matrix) ;;
  let '(score, translation) := r in
  Returned
    {| score := score;
       translation := translation;
       rotation := None;
       result_cavity_grid := Some cavity_grid;
       result_molecule_grid := Some molecule_grid;
       result_compatibility_matrix := Some compatibility_matrix;
       metadata := Some
         {| md_grid_spacing := grid_spacing self;
            md_max_translation := max_translation self;
            md_gap_penalty := gap_penalty self;
            md_cavity_voxels := Z.of_nat (List.length cavity_grid);
            md_molecule_voxels := Z.of_nat (List.length molecule_grid) |} |}.

(** ** Exact arithmetic *)


(** ** The specification's vocabulary *)

(** The contribution of one overlapping pair: the matrix value of the
    ordered pair, else of the reversed pair, else 0. *)
Definition pair_score (compatibility_matrix : CompatibilityMatrix)
    (mol_type cavity_type : string) : float :=
  match matrix_get compatibility_matrix (mol_type, cavity_type) with
  | Some v => v
  | None =>
      match matrix_get compatibility_matrix (cavity_type, mol_type) with
      | Some v => v
      | None => 0%float
      end
  end.

(** The molecule voxels whose translated position is a key of the cavity
    grid, each with the cavity voxel it lands on, in the molecule grid's
    order. *)
Definition overlaps (cavity_grid molecule_grid : VoxelGrid) (offset : position)
    : list (Voxel * Voxel) :=
  flat_map (fun item : position * Voxel =>
              match grid_get cavity_grid (translate (fst item) offset) with
              | Some cavity_voxel => [(snd item, cavity_voxel)]
              | None => []
              end) molecule_grid.

(** A sum of floats, accumulated from 0.0 from left to right. *)
Definition float_sum (l : list float) : float :=
  fold_left PrimFloat.add l 0%float.

(** The offset-translated position of a molecule voxel, as the
    specification words it: each coordinate of the voxel's position plus
    the same coordinate of the offset. *)
Definition offset_translated (mol_pos offset : position) : position :=
  (fst (fst mol_pos) + fst (fst offset),
   snd (fst mol_pos) + snd (fst offset),
   snd mol_pos + snd offset).

(** The voxel a grid holds at [pos]: that of the item whose key is [pos]. *)
Definition voxel_at (grid : VoxelGrid) (pos : position) : option Voxel :=
  option_map snd (find (fun item => position_eqb (fst item) pos) grid).

(** The overlaps of a placement, as the specification words them: each
    molecule voxel whose offset-translated position is a key of the cavity
    grid, with the cavity voxel at that key. *)
Definition placement_overlaps (cavity_grid molecule_grid : VoxelGrid)
    (offset : position) : list (Voxel * Voxel) :=
  flat_map (fun item : position * Voxel =>
              match voxel_at cavity_grid (offset_translated (fst item) offset) with
              | Some cavity_voxel => [(snd item, cavity_voxel)]
              | None => []
              end) molecule_grid.

(** The placement score as the specification words it. *)
Definition placement_score_spec (cavity_grid molecule_grid : VoxelGrid)
    (offset : position) (compatibility_matrix : CompatibilityMatrix) : float :=
  let contributions :=
    map (fun o : Voxel * Voxel =>
           pair_score compatibility_matrix
                      (property_type (fst o)) (property_type (snd o)))
        (placement_overlaps cavity_grid molecule_grid offset) in
  let overlap_count := Z.of_nat (List.length contributions) in
  if overlap_count =? 0 then 0%float
  else (float_sum contributions / float_of_Z overlap_count
        * PrimFloat.sqrt (float_of_Z overlap_count))%float.

(** The value [spatial_alignment] gives to a candidate offset. *)
Definition candidate_value (cavity_grid molecule_grid : VoxelGrid)
    (compatibility_matrix : CompatibilityMatrix) (gap_penalty : float)
    (cavity_pos : position) : float :=
  (calculate_placement_score cavity_grid molecule_grid cavity_pos compatibility_matrix
   + gap_penalty)%float.

(** [Q] dominates [P]: at least as good on every objective of [P] and
    strictly better on one. *)
Definition Dominates (Q P : dict string float) : Prop :=
  (forall k, In k (dict_keys P) -> (score_at P k <=? score_at Q k)%float = true) /\
  (exists k, In k (dict_keys P) /\ (score_at P k <? score_at Q k)%float = true).

(** The index combinations of [n] bonds: the tuples of length [n] over
    [0 .. torsion_steps - 1], in the order of [itertools.product]. *)
Definition index_tuples (torsion_steps : Z) (n : nat) : list (list Z) :=
  product (range torsion_steps) n.



(** What the loop of [spatial_alignment] has established once it has gone
    through the candidates [done]: either nothing has beaten the initial
    [-inf], or the state holds the first of the greatest values seen. *)
Definition best_so_far (value : position -> float) (done : list position)
    (st : float * position) : Prop :=
  (fst st = neg_infinity /\ snd st = (0, 0, 0) /\
   forall p, In p done -> (neg_infinity <? value p)%float = false)
  \/
  (exists i : nat,
     nth_error done i = Some (snd st) /\
     fst st = value (snd st) /\
     (neg_infinity <? fst st)%float = true /\
     (forall p, In p done -> (fst st <? value p)%float = false) /\
     (forall j p, (j < i)%nat -> nth_error done j = Some p ->
                  (value p =? fst st)%float = false)).

(** An objective for examples: the x coordinate of the position. *)
Definition x_coordinate : objective :=
  fun _ _ pos => float_of_Z (fst (fst pos)).

(** What the loop of [pareto_optimal_docking] keeps: every frontier entry
    is one of the evaluated solutions and is dominated by none evaluated
    before it. *)
Definition undominated_by_earlier (st : list solution * list solution) : Prop :=
  forall P, In P (fst st) ->
    exists i : nat,
      nth_error (snd st) i = Some P /\
      forall j Q, (j < i)%nat -> nth_error (snd st) j = Some Q ->
                  dominates (snd Q) (snd P) = false.

(** The Boltzmann weight of a score: [exp(-energy / kT)] with
    [energy = -score]. *)
Definition boltzmann_weight {F : Type} (A : arithmetic F) (kT score : F) : F :=
  a_exp A (a_div A (a_opp A (a_opp A score)) kT).

(** The partition function: the weights added to 0.0 in the landscape's
    order. *)
Definition partition_function {F : Type} (A : arithmetic F) (kT : F)
    (all_scores : dict position F) : F :=
  fold_left (a_add A) (map (boltzmann_weight A kT) (dict_values all_scores))
            (a_zero A).

(** The probabilities as the specification words them:
    [probability[position] = weight / Z]. *)
Definition boltzmann_spec {F : Type} (A : arithmetic F)
    (all_scores : dict position F) (temperature : F) : dict position F :=
  let kT := a_mul A (a_kB A) temperature in
  let Z := partition_function A kT all_scores in
  map (fun item : position * F =>
         (fst item, a_div A (boltzmann_weight A kT (snd item)) Z))
      all_scores.

(** * The rest of the package *)

(** ** [scoring.py]: [timp2_specific_bonus] (lines 23-31) *)

(** [x in [...]] for a string [x]. *)
Definition string_in (x : string) (l : list string) : bool :=
  existsb (String.eqb x) l.

(** [r in [...]] and [r == s] for a residue, which may be [None]. *)
Definition residue_in (r : option string) (l : list string) : bool :=
  match r with
  | Some s => string_in s l
  | None => false
  end.

Definition residue_is (r : option string) (s : string) : bool :=
  match r with
  | Some s' => String.eqb s' s
  | None => false
  end.

Definition timp2_specific_bonus (mol_voxel cavity_voxel : Voxel) : float :=
  let bonus := 0%float in
  let bonus :=
    if residue_in (nearby_residue cavity_voxel) ["SER69"; "TYR73"]%string
       && string_in (property_type mol_voxel)
                    ["polar"; "charged_pos"; "charged_neg"]%string
    then (bonus + 2.5)%float else bonus in
  let bonus :=
    if residue_is (nearby_residue cavity_voxel) "LEU76"
       && String.eqb (property_type mol_voxel) "hydrophobic"
    then (bonus + 2.0)%float else bonus in
  let bonus :=
    if String.eqb (property_type cavity_voxel) "hydrophobic"
       && string_in (property_type mol_voxel) ["charged_pos"; "charged_neg"]%string
    then (bonus - 3.0)%float else bonus in
  bonus.

(** ** [conformers.py]: [ConformationalDockingState] (lines 11-17) and
       [apply_torsion_to_molecule] (lines 19-22) *)

(** The components of an index tuple: the ints of a position and the
    floats of the torsion angles. *)
Inductive number : Type :=
| Int (z : Z)
| Float (f : float).

Record ConformationalDockingState : Type := mkConformationalDockingState {
  state_position : position;
  torsion_angles : list float
}.

(** [self.position + tuple(self.torsion_angles)] *)
Definition index (self : ConformationalDockingState) : list number :=
  let '(x, y, z) := state_position self in
  [Int x; Int y; Int z] ++ map Float (torsion_angles self).

(** The stub returns its molecule unchanged. *)
Definition apply_torsion_to_molecule (molecule : VoxelGrid)
    (angles : list float) : VoxelGrid :=
  molecule.

(** ** [core.py]: the other methods of [SpatialDocking] and
       [create_test_molecule] *)

(** Two more kinds of exception are raised there. *)
Inductive failure : Type :=
| Builtin (e : exn)
| IndexError (msg : string)
| AttributeError (msg : string).

Inductive result (A : Type) : Type :=
| Ok (a : A)
| Failed (f : failure).

Arguments Ok {A} a.
Arguments Failed {A} f.

(** [SpatialDocking.score_pose] (lines 210-236). *)
Definition SpatialDocking_score_pose (self : SpatialDocking)
    (cavity_grid molecule_grid : VoxelGrid) (translation : position)
    (compatibility_matrix : option CompatibilityMatrix) : float :=
  let compatibility_matrix :=
    match compatibility_matrix with
    | None => default_compatibility_matrix
    | Some m => m
    end in
  calculate_placement_score cavity_grid molecule_grid translation compatibility_matrix.

(** [results.sort(key=lambda x: x.score, reverse=True)]: a stable sort into
    descending order of score, which compares keys with [<] only.  The
    insertion sort below is that order whenever no score is NaN. *)
Fixpoint insert_by_score (x : DockingResult) (l : list DockingResult)
    : list DockingResult :=
  match l with
  | [] => [x]
  | y :: l' =>
      if (score x <? score y)%float then y :: insert_by_score x l'
      else x :: y :: l'
  end.

Definition sort_by_score_descending (l : list DockingResult) : list DockingResult :=
  fold_right insert_by_score [] l.

(** The loop of [align_multiple]: one [align] per molecule, the results
    appended in order; the first exception ends it. *)
Fixpoint align_each (self : SpatialDocking) (cavity_grid : VoxelGrid)
    (molecules : list VoxelGrid) (compatibility_matrix : option CompatibilityMatrix)
    (results : list DockingResult) : outcome (list DockingResult) :=
  match molecules with
  | [] => Returned results
  | molecule_grid :: rest =>
      r <- SpatialDocking_align self cavity_grid molecule_grid compatibility_matrix ;;
      align_each self cavity_grid rest compatibility_matrix (results ++ [r])
  end.

(** [SpatialDocking.align_multiple] (lines 156-184).  The last log message
    formats [results[0].score], which is evaluated whatever the log level. *)
Definition SpatialDocking_align_multiple (self : SpatialDocking)
    (cavity_grid : VoxelGrid) (molecules : list VoxelGrid)
    (compatibility_matrix : option CompatibilityMatrix)
    : result (list DockingResult) :=
  match align_each self cavity_grid molecules compatibility_matrix [] with
  | Raised e => Failed (Builtin e)
  | Returned results =>
      let results := sort_by_score_descending results in
      match results with
      | [] => Failed (IndexError "list index out of range")
      | _ :: _ => Ok results
      end
  end.

(** The values passed by keyword to [visualize_docking]. *)
Inductive plot_argument : Type :=
| PlotGrid (g : VoxelGrid)
| PlotOffset (p : position)
| PlotPath (s : option string)
| PlotFlag (b : bool).

(** [def visualize_docking(cavity_grid, molecule_grid, offset)]
    ([visualization.py], line 8): three parameters, none with a default. *)
Definition visualize_docking_parameters : list string :=
  ["cavity_grid"; "molecule_grid"; "offset"]%string.

(** The first keyword of a call that names no parameter, if there is one. *)
Fixpoint unexpected_keyword {V : Type} (parameters : list string)
    (kwargs : list (string * V)) : option string :=
  match kwargs with
  | [] => None
  | (name, _) :: rest =>
      if string_in name parameters then unexpected_keyword parameters rest
      else Some name
  end.

(** A call [visualize_docking(name=value, ...)].  The body draws with
    matplotlib; it is the parameter [draw]. *)
Definition call_visualize_docking
    (draw : VoxelGrid -> VoxelGrid -> position -> outcome unit)
    (kwargs : list (string * plot_argument)) : outcome unit :=
  match unexpected_keyword visualize_docking_parameters kwargs with
  | Some name =>
      Raised (TypeError
        ("visualize_docking() got an unexpected keyword argument '" ++ name ++ "'"))
  | None =>
      match dict_get String.eqb kwargs "cavity_grid"%string,
            dict_get String.eqb kwargs "molecule_grid"%string,
            dict_get String.eqb kwargs "offset"%string with
      | Some (PlotGrid cavity_grid), Some (PlotGrid molecule_grid),
        Some (PlotOffset offset) => draw cavity_grid molecule_grid offset
      | _, _, _ =>
          Raised (TypeError "visualize_docking() missing required arguments")
      end
  end.

(** [SpatialDocking.visualize] (lines 186-208). *)
Definition SpatialDocking_visualize
    (draw : VoxelGrid -> VoxelGrid -> position -> outcome unit)
    (self : SpatialDocking) (res : DockingResult)
    (save_path : option string) (show_plot : bool) : outcome unit :=
  match result_cavity_grid res, result_molecule_grid res with
  | Some cavity_grid, Some molecule_grid =>
      call_visualize_docking draw
        [ ("cavity_grid", PlotGrid cavity_grid);
          ("molecule_grid", PlotGrid molecule_grid);
          ("offset", PlotOffset (translation res));
          ("save_path", PlotPath save_path);
          ("show_plot", PlotFlag show_plot) ]%string
  | _, _ =>
      Raised (ValueError
        "Result must contain cavity_grid and molecule_grid for visualization")
  end.

(** One entry of [analysis['interactions']]. *)
Record Interaction : Type := mkInteraction {
  molecule_voxel : position;
  cavity_voxel : position;
  molecule_type : string;
  cavity_type : string;
  residue : option string;
  interaction_score : float
}.

(** The dictionary [get_binding_site_analysis] returns. *)
Record Analysis : Type := mkAnalysis {
  total_score : float;
  analysis_translation : position;
  interactions : list Interaction;
  interaction_counts : dict (string * string) Z;
  residue_contributions : dict string float
}.

(** [d.get(k, default)] *)
Definition dict_get_default {K V : Type} (eqb : K -> K -> bool)
    (d : dict K V) (k : K) (default : V) : V :=
  match dict_get eqb d k with
  | Some v => v
  | None => default
  end.

(** [if s:] for an optional string: neither [None] nor empty. *)
Definition truthy (s : option string) : bool :=
  match s with
  | Some (String _ _) => true
  | _ => false
  end.

(** One iteration of the loop of [get_binding_site_analysis]; the state is
    the [analysis] dictionary. *)
Definition analysis_step (res : DockingResult) (cavity_grid : VoxelGrid)
    (analysis : Analysis) (item : position * Voxel) : result Analysis :=
  let '(mol_pos, mol_voxel) := item in
  let translated_pos := translate mol_pos (translation res) in
  match grid_get cavity_grid translated_pos with
  | Some cav_voxel =>
      match result_compatibility_matrix res with
      | None => Failed (AttributeError "'NoneType' object has no attribute 'get'")
      | Some matrix =>
          let pair := (property_type mol_voxel, property_type cav_voxel) in
          let interaction :=
            {| molecule_voxel := mol_pos;
               cavity_voxel := translated_pos;
               molecule_type := property_type mol_voxel;
               cavity_type := property_type cav_voxel;
               residue := nearby_residue cav_voxel;
               interaction_score := dict_get_default pair_eqb matrix pair 0%float |} in
          let counts :=
            dict_set pair_eqb (interaction_counts analysis) pair
              (dict_get_default pair_eqb (interaction_counts analysis) pair 0 + 1) in
          let contributions :=
            if truthy (nearby_residue cav_voxel) then
              match nearby_residue cav_voxel with
              | Some res_name =>
                  dict_set String.eqb (residue_contributions analysis) res_name
                    (dict_get_default String.eqb (residue_contributions analysis)
                                      res_name 0%float
                     + interaction_score interaction)%float
              | None => residue_contributions analysis
              end
            else residue_contributions analysis in
          Ok {| total_score := total_score analysis;
                analysis_translation := analysis_translation analysis;
                interactions := interactions analysis ++ [interaction];
                interaction_counts := counts;
                residue_contributions := contributions |}
      end
  | None => Ok analysis
  end.

Fixpoint analysis_loop (res : DockingResult) (cavity_grid : VoxelGrid)
    (items : list (position * Voxel)) (analysis : Analysis) : result Analysis :=
  match items with
  | [] => Ok analysis
  | item :: rest =>
      match analysis_step res cavity_grid analysis item with
      | Ok analysis' => analysis_loop res cavity_grid rest analysis'
      | Failed f => Failed f
      end
  end.

(** [SpatialDocking.get_binding_site_analysis] (lines 238-288). *)
Definition SpatialDocking_get_binding_site_analysis (self : SpatialDocking)
    (res : DockingResult) : result Analysis :=
  match result_cavity_grid res, result_molecule_grid res with
  | Some cavity_grid, Some molecule_grid =>
      analysis_loop res cavity_grid molecule_grid
        {| total_score := score res;
           analysis_translation := translation res;
           interactions := [];
           interaction_counts := [];
           residue_contributions := [] |}
  | _, _ =>
      Failed (Builtin (ValueError
        "Result must contain cavity_grid and molecule_grid for analysis"))
  end.

(** One iteration of the loop of [create_test_molecule] (lines 343-373):
    the voxel at [(float(i), 0.0, 0.0)], polar for even [i]. *)
Definition test_molecule_step (molecule : VoxelGrid) (i : Z) : outcome VoxelGrid :=
  let pos := (i, 0, 0) in
  let prop_type := if i mod 2 =? 0 then "polar"%string else "hydrophobic"%string in
  v <- Voxel_new pos prop_type 1.0 0.8 None ;;
  Returned (dict_set position_eqb molecule pos v).

Definition create_test_molecule (length : Z) : outcome VoxelGrid :=
  foldM test_molecule_step (range length) [].


(** A compatibility matrix with every key reversed. *)
Definition transpose (m : CompatibilityMatrix) : CompatibilityMatrix :=
  map (fun e : (string * string) * float => ((snd (fst e), fst (fst e)), snd e)) m.

(** No pair is stored in both orders with different values. *)
Definition consistent (m : CompatibilityMatrix) : Prop :=
  forall a b v w,
    matrix_get m (a, b) = Some v -> matrix_get m (b, a) = Some w -> v = w.

(** What the loop of [pareto_optimal_docking] also keeps: every solution
    evaluated so far is in the frontier or dominated by a frontier entry,
    and all score dictionaries have the objectives' keys. *)
Definition covered_by_frontier (objectives : dict string objective)
    (st : list solution * list solution) : Prop :=
  (forall S, In S (snd st) -> dict_keys (snd S) = dict_keys objectives) /\
  (forall Q, In Q (fst st) -> dict_keys (snd Q) = dict_keys objectives) /\
  (forall S, In S (snd st) ->
     In S (fst st) \/
     exists Q, In Q (fst st) /\ dominates (snd Q) (snd S) = true).

(** ** [core.py]: [create_synthetic_cavity] (lines 292-341) *)

Section SyntheticCavity.

(** numpy's global random generator: its state, and what [np.random.seed],
    [np.random.choice] and [np.random.random] do with it. *)
Variable rng : Type.
Variable np_random_seed : Z -> outcome rng.
Variable np_random_choice : list string -> rng -> string * rng.
Variable np_random_random : rng -> float * rng.

(** The [if]/[elif] chain on [pattern] at the cell [(x, y, z)]. *)
Definition cavity_property_type (size : Z * Z * Z) (pattern : string)
    (x y z : Z) (g : rng) : outcome (string * rng) :=
  let '(_, _, size2) := size in
  if String.eqb pattern "checkerboard" then
    Returned (if (x + y + z) mod 2 =? 0 then "hydrophobic"%string
              else "polar"%string, g)
  else if String.eqb pattern "layered" then
    Returned (if (z <? size2 / 3) || (z >? 2 * size2 / 3) then "polar"%string
              else "hydrophobic"%string, g)
  else if String.eqb pattern "random" then
    g <- np_random_seed (x * 1000 + y * 100 + z) ;;
    Returned (np_random_choice
                ["hydrophobic"; "polar"; "charged_pos"; "charged_neg"]%string g)
  else Raised (ValueError ("Unknown pattern: " ++ pattern)).

(** The body of the innermost loop; the state is the [cavity] dictionary
    and the generator. *)
Definition cavity_step (size : Z * Z * Z) (pattern : string) (x y : Z)
    (st : VoxelGrid * rng) (z : Z) : outcome (VoxelGrid * rng) :=
  let '(cavity, g) := st in
  let pos := (x, y, z) in
  r <- cavity_property_type size pattern x y z g ;;
  let '(prop_type, g) := r in
  let '(a, g) := np_random_random g in
  let '(f, g) := np_random_random g in
  v <- Voxel_new pos prop_type (0.5 + 0.5 * a)%float (0.3 + 0.4 * f)%float None ;;
  Returned (dict_set position_eqb cavity pos v, g).

Definition create_synthetic_cavity (size : Z * Z * Z) (pattern : string)
    (g : rng) : outcome VoxelGrid :=
  let '(size0, size1, size2) := size in
  st <- foldM (fun st x =>
                 foldM (fun st y =>
                          foldM (cavity_step size pattern x y) (range size2) st)
                       (range size1) st)
              (range size0) ([], g) ;;
  Returned (fst st).

End SyntheticCavity.

(** * Facts about binary64 arithmetic *)

(** ** Rounding never produces a zero from a non-zero mantissa *)

Lemma digits2_pos_size : forall m, digits2_pos m = Pos.size m.
Proof. induction m; simpl; congruence. Qed.

Lemma digits2_pos_le : forall m, 2 ^ (Zpos (digits2_pos m) - 1) <= Zpos m.
Proof.
  intros m. rewrite digits2_pos_size.
  pose proof (Pos.size_le m) as H.
  assert (Hp : 2 ^ Zpos (Pos.size m) <= 2 * Zpos m).
  { change 2 with (Zpos 2) at 1. rewrite <- Pos2Z.inj_pow.
    change (2 * Z.pos m) with (Zpos (m~0)). apply Pos2Z.pos_le_pos. exact H. }
  replace (Zpos (Pos.size m)) with (Z.succ (Zpos (Pos.size m) - 1)) in Hp by lia.
  rewrite Z.pow_succ_r in Hp by lia. lia.
Qed.

Lemma shr_1_m : forall mrs, 0 <= shr_m mrs -> shr_m (shr_1 mrs) = Z.div2 (shr_m mrs).
Proof.
  intros [m r s] H. simpl in *. destruct m as [|[p|p|]|p]; simpl; try reflexivity; lia.
Qed.

Lemma iter_pos_shr_m : forall p mrs, 0 <= shr_m mrs ->
  shr_m (SpecFloat.iter_pos shr_1 p mrs) = Z.shiftr (shr_m mrs) (Zpos p).
Proof.
  assert (Hnn : forall a n, 0 <= a -> 0 <= Z.shiftr a n).
  { intros. apply Z.shiftr_nonneg. assumption. }
  induction p as [p IH|p IH|]; intros mrs H; simpl.
  - assert (H1 : 0 <= shr_m (shr_1 mrs)).
    { rewrite shr_1_m, Z.div2_spec by assumption. apply Hnn, H. }
    assert (H2 : 0 <= shr_m (SpecFloat.iter_pos shr_1 p (shr_1 mrs))).
    { rewrite IH by assumption. apply Hnn, H1. }
    rewrite IH, IH, shr_1_m, Z.div2_spec by assumption.
    rewrite !Z.shiftr_shiftr by lia. f_equal. lia.
  - assert (H1 : 0 <= shr_m (SpecFloat.iter_pos shr_1 p mrs)).
    { rewrite IH by assumption. apply Hnn, H. }
    rewrite IH, IH by assumption.
    rewrite !Z.shiftr_shiftr by lia. f_equal. lia.
  - rewrite shr_1_m by assumption. apply Z.div2_spec.
Qed.

Lemma shiftr_pos : forall m n,
  0 <= n < Zpos (digits2_pos m) -> 0 < Z.shiftr (Zpos m) n.
Proof.
  intros m n Hn. rewrite Z.shiftr_div_pow2 by lia.
  pose proof (digits2_pos_le m) as Hd.
  assert (2 ^ n <= 2 ^ (Zpos (digits2_pos m) - 1)) by (apply Z.pow_le_mono_r; lia).
  apply Z.div_str_pos. split; [apply Z.pow_pos_nonneg; lia | lia].
Qed.

Lemma fexp64_eq : forall x, fexp prec emax x = Z.max (x - 53) (-1074).
Proof. reflexivity. Qed.

Lemma shr_record_of_loc_m : forall m l, shr_m (shr_record_of_loc m l) = m.
Proof. intros m [|[]]; reflexivity. Qed.

Lemma shr_fexp_pos : forall m e l,
  -1074 <= e ->
  0 < shr_m (fst (shr_fexp prec emax (Zpos m) e l)) /\
  -1074 <= snd (shr_fexp prec emax (Zpos m) e l).
Proof.
  intros m e l He. unfold shr_fexp, shr.
  destruct (fexp prec emax (Zdigits2 (Zpos m) + e) - e) as [|p|p] eqn:Hn; simpl.
  - rewrite shr_record_of_loc_m. lia.
  - rewrite iter_pos_shr_m by (rewrite shr_record_of_loc_m; lia).
    rewrite shr_record_of_loc_m. split; [|lia].
    apply shiftr_pos.
    rewrite fexp64_eq in Hn.
    change (Zdigits2 (Z.pos m)) with (Z.pos (digits2_pos m)) in Hn. lia.
  - rewrite shr_record_of_loc_m. lia.
Qed.

Lemma round_nearest_even_pos : forall m l, 0 < m -> 0 < round_nearest_even m l.
Proof. intros m [|[]] H; simpl; try lia. destruct (Z.even m); lia. Qed.

Lemma binary_round_aux_not_zero : forall sx m e l s,
  -1074 <= e -> binary_round_aux prec emax sx (Zpos m) e l <> S754_zero s.
Proof.
  intros sx m e l s He. unfold binary_round_aux.
  destruct (shr_fexp_pos m e l He) as [Hm1 He1].
  destruct (shr_fexp prec emax (Zpos m) e l) as [m1 e1]. simpl in Hm1, He1.
  pose proof (round_nearest_even_pos (shr_m m1) (loc_of_shr_record m1) Hm1) as Hr.
  destruct (round_nearest_even (shr_m m1) (loc_of_shr_record m1)) as [|q|q]; try lia.
  destruct (shr_fexp_pos q e1 loc_Exact He1) as [Hm2 He2].
  destruct (shr_fexp prec emax (Zpos q) e1 loc_Exact) as [m2 e2]. simpl in Hm2, He2.
  destruct (shr_m m2); try lia.
  destruct (e2 <=? emax - prec); discriminate.
Qed.

Lemma fexp_ge_emin : forall e, -1074 <= fexp prec emax e.
Proof. intros. rewrite fexp64_eq. lia. Qed.

Lemma binary_round_not_zero : forall sx m e s,
  -1074 <= e -> binary_round prec emax sx m e <> S754_zero s.
Proof.
  intros sx m e s He. unfold binary_round, shl_align.
  destruct (fexp prec emax (Z.pos (digits2_pos m) + e) - e) eqn:Hd;
    apply binary_round_aux_not_zero; auto using fexp_ge_emin.
Qed.

Lemma valid_finite_emin : forall s m e,
  valid_binary (S754_finite s m e) = true -> -1074 <= e.
Proof.
  intros s m e H. simpl in H. unfold bounded, canonical_mantissa in H.
  apply andb_prop in H. destruct H as [H _]. apply Z.eqb_eq in H.
  rewrite <- H. apply fexp_ge_emin.
Qed.

Lemma SF64add_neg_zero : forall x y,
  valid_binary x = true -> valid_binary y = true ->
  SF64add x y = S754_zero true -> x = S754_zero true /\ y = S754_zero true.
Proof.
  intros x y Hx Hy H. unfold SF64add in H.
  destruct x as [[]| [] | |sx mx ex], y as [[]| [] | |sy my ey]; simpl in H;
    try discriminate; auto.
  exfalso.
  apply valid_finite_emin in Hx. apply valid_finite_emin in Hy.
  unfold binary_normalize in H.
  match type of H with match ?z with _ => _ end = _ => destruct z end;
    try discriminate; revert H; apply binary_round_not_zero; lia.
Qed.

(** A float sum is [-0.0] only when both terms are. *)
Lemma add_neg_zero : forall x y : float,
  (x + y)%float = neg_zero -> x = neg_zero /\ y = neg_zero.
Proof.
  intros x y H.
  assert (Hs : SF64add (Prim2SF x) (Prim2SF y) = S754_zero true).
  { rewrite <- add_spec, H. reflexivity. }
  apply SF64add_neg_zero in Hs; auto using Prim2SF_valid.
  destruct Hs as [Hx Hy]. split; apply Prim2SF_inj; assumption.
Qed.

(** Adding [0.0] changes no float but [-0.0]. *)
Lemma add_zero_r : forall x : float, x <> neg_zero -> (x + 0)%float = x.
Proof.
  intros x Hx. apply Prim2SF_inj. rewrite add_spec.
  change (Prim2SF 0) with (S754_zero false).
  destruct (Prim2SF x) as [[]| [] | |sx mx ex] eqn:E; try reflexivity.
  exfalso. apply Hx. apply Prim2SF_inj. rewrite E. reflexivity.
Qed.

(** ** The order of binary64 values *)

Ltac cmp_cases :=
  repeat match goal with
  | H : context [Z.compare ?a ?b] |- _ => destruct (Z.compare_spec a b)
  | |- context [Z.compare ?a ?b] => destruct (Z.compare_spec a b)
  | H : context [Pos.compare_cont Eq ?a ?b] |- _ =>
      change (Pos.compare_cont Eq a b) with (Pos.compare a b) in *;
      destruct (Pos.compare_spec a b)
  | |- context [Pos.compare_cont Eq ?a ?b] =>
      change (Pos.compare_cont Eq a b) with (Pos.compare a b) in *;
      destruct (Pos.compare_spec a b)
  end.

Ltac cmp_solve := simpl in *; cmp_cases; subst; simpl in *; try congruence; try lia.

Lemma SFcompare_trans : forall x y z c,
  SFcompare x y = Some c -> SFcompare y z = Some c -> SFcompare x z = Some c.
Proof.
  intros [[]|[]| |[] mx ex] [[]|[]| |[] my ey] [[]|[]| |[] mz ez] c H1 H2;
    simpl in H1, H2 |- *; try discriminate; try congruence;
    injection H1 as <-; injection H2 as H2; f_equal; cmp_solve.
Qed.

Lemma SFcompare_eq_r : forall x y z c,
  SFcompare x y = Some c -> SFcompare z y = Some Eq -> SFcompare x z = Some c.
Proof.
  intros [[]|[]| |[] mx ex] [[]|[]| |[] my ey] [[]|[]| |[] mz ez] c H1 H2;
    simpl in H1, H2 |- *; try discriminate; try congruence;
    injection H1 as <-; injection H2 as H2; f_equal; cmp_solve.
Qed.

Lemma SFcompare_irrefl : forall x, SFcompare x x <> Some Lt.
Proof.
  intros [[]|[]| |[] mx ex]; simpl; try discriminate; intros H; cmp_solve.
Qed.

Lemma ltb_irrefl : forall x : float, (x <? x)%float = false.
Proof.
  intros x. rewrite ltb_spec. unfold SFltb.
  pose proof (SFcompare_irrefl (Prim2SF x)) as H.
  destruct (SFcompare (Prim2SF x) (Prim2SF x)) as [[]|]; congruence.
Qed.

Lemma ltb_true : forall x y : float,
  (x <? y)%float = true <-> SFcompare (Prim2SF x) (Prim2SF y) = Some Lt.
Proof.
  intros x y. rewrite ltb_spec. unfold SFltb.
  destruct (SFcompare (Prim2SF x) (Prim2SF y)) as [[]|]; split; congruence.
Qed.

Lemma eqb_true : forall x y : float,
  (x =? y)%float = true <-> SFcompare (Prim2SF x) (Prim2SF y) = Some Eq.
Proof.
  intros x y. rewrite eqb_spec. unfold SFeqb.
  destruct (SFcompare (Prim2SF x) (Prim2SF y)) as [[]|]; split; congruence.
Qed.

Lemma ltb_trans : forall x y z : float,
  (x <? y)%float = true -> (y <? z)%float = true -> (x <? z)%float = true.
Proof.
  intros x y z. rewrite !ltb_true. apply SFcompare_trans.
Qed.

(** A value equal to one that exceeds [x] exceeds [x] too. *)
Lemma ltb_eqb_r : forall x y z : float,
  (x <? y)%float = true -> (z =? y)%float = true -> (x <? z)%float = true.
Proof.
  intros x y z. rewrite !ltb_true, eqb_true. apply SFcompare_eq_r.
Qed.

Lemma SFcompare_antisym : forall x y c,
  SFcompare x y = Some c -> SFcompare y x = Some (CompOpp c).
Proof.
  intros [[]|[]| |[] mx ex] [[]|[]| |[] my ey] c H; simpl in H |- *;
    try discriminate; try (injection H as <-; reflexivity);
    injection H as <-; f_equal; cmp_solve.
Qed.

Lemma SFcompare_eq_l : forall x y z c,
  SFcompare x y = Some Eq -> SFcompare y z = Some c -> SFcompare x z = Some c.
Proof.
  intros [[]|[]| |[] mx ex] [[]|[]| |[] my ey] [[]|[]| |[] mz ez] c H1 H2;
    simpl in H1, H2 |- *; try discriminate; try congruence;
    injection H1 as H1; injection H2 as <-; f_equal; cmp_solve.
Qed.

Lemma SFcompare_refl_r : forall x y c,
  SFcompare x y = Some c -> SFcompare y y = Some Eq.
Proof.
  intros [[]|[]| |[] mx ex] [[]|[]| |[] my ey] c H; simpl in H |- *;
    try discriminate; try reflexivity; f_equal; cmp_solve.
Qed.

Lemma leb_true : forall x y : float,
  (x <=? y)%float = true <->
  SFcompare (Prim2SF x) (Prim2SF y) = Some Lt \/
  SFcompare (Prim2SF x) (Prim2SF y) = Some Eq.
Proof.
  intros x y. rewrite leb_spec. unfold SFleb.
  destruct (SFcompare (Prim2SF x) (Prim2SF y)) as [[]|]; split;
    first [ intros _; auto; fail
          | intros H; discriminate H
          | intros [H | H]; discriminate H ].
Qed.


Lemma ltb_leb_trans : forall x y z : float,
  (x <? y)%float = true -> (y <=? z)%float = true -> (x <? z)%float = true.
Proof.
  intros x y z. rewrite leb_true, !ltb_true. intros Hxy [H | H].
  - exact (SFcompare_trans _ _ _ _ Hxy H).
  - apply SFcompare_antisym in H. exact (SFcompare_eq_r _ _ _ _ Hxy H).
Qed.



Lemma ltb_is_nan_r : forall x y : float,
  (x <? y)%float = true -> is_nan y = false.
Proof.
  intros x y H. unfold is_nan. apply negb_false_iff, eqb_true.
  apply ltb_true in H. exact (SFcompare_refl_r _ _ _ H).
Qed.

Lemma SFcompare_total : forall x y,
  SFcompare x x = Some Eq -> SFcompare y y = Some Eq ->
  exists c, SFcompare x y = Some c.
Proof.
  intros [[]|[]| |[] mx ex] [[]|[]| |[] my ey] Hx Hy; simpl in *;
    try discriminate; eauto.
Qed.

(** Two floats that are no NaN are comparable. *)
Lemma ltb_false_leb : forall x y : float,
  is_nan x = false -> is_nan y = false ->
  (x <? y)%float = false -> (y <=? x)%float = true.
Proof.
  intros x y Hx Hy H. unfold is_nan in Hx, Hy.
  apply negb_false_iff, eqb_true in Hx. apply negb_false_iff, eqb_true in Hy.
  destruct (SFcompare_total _ _ Hx Hy) as [c Hc].
  apply leb_true. destruct c.
  - right. exact (SFcompare_antisym _ _ _ Hc).
  - apply ltb_true in Hc. congruence.
  - left. exact (SFcompare_antisym _ _ _ Hc).
Qed.


(** * The placement score *)

Lemma fold_add_not_neg_zero : forall (l : list float) (s : float),
  s <> neg_zero -> fold_left PrimFloat.add l s <> neg_zero.
Proof.
  induction l as [|v l IH]; intros s Hs; simpl; [assumption|].
  apply IH. intros H. apply add_neg_zero in H. tauto.
Qed.

(** The accumulator never holds [-0.0], so an overlap that adds nothing
    is an overlap that adds [0.0]. *)
Lemma placement_step_score : forall cavity_grid offset compatibility_matrix
    (score : float) (n : Z) (mol_pos : position) (mol_voxel cavity_voxel : Voxel),
  score <> neg_zero ->
  grid_get cavity_grid (translate mol_pos offset) = Some cavity_voxel ->
  placement_step cavity_grid offset compatibility_matrix (score, n) (mol_pos, mol_voxel)
  = ((score + pair_score compatibility_matrix (property_type mol_voxel)
                         (property_type cavity_voxel))%float, n + 1).
Proof.
  intros cavity_grid offset cm score n mol_pos mol_voxel cavity_voxel Hs Hg.
  unfold placement_step, pair_score. rewrite Hg.
  destruct (matrix_get cm (property_type mol_voxel, property_type cavity_voxel));
    [reflexivity|].
  destruct (matrix_get cm (property_type cavity_voxel, property_type mol_voxel));
    [reflexivity|].
  rewrite add_zero_r by assumption. reflexivity.
Qed.

Lemma placement_loop_spec : forall cavity_grid offset compatibility_matrix
    (molecule_grid : VoxelGrid) (score : float) (n : Z),
  score <> neg_zero ->
  let contributions :=
    map (fun o : Voxel * Voxel =>
           pair_score compatibility_matrix
                      (property_type (fst o)) (property_type (snd o)))
        (overlaps cavity_grid molecule_grid offset) in
  fold_left (placement_step cavity_grid offset compatibility_matrix)
            molecule_grid (score, n)
  = (fold_left PrimFloat.add contributions score,
     n + Z.of_nat (List.length contributions)).
Proof.
  intros cavity_grid offset cm molecule_grid.
  induction molecule_grid as [|[mol_pos mol_voxel] rest IH]; intros score n Hs.
  - simpl. f_equal. lia.
  - cbv zeta in IH |- *. unfold overlaps in *. cbn [fold_left flat_map fst snd].
    destruct (grid_get cavity_grid (translate mol_pos offset)) as [cavity_voxel|] eqn:Hg.
    + rewrite (placement_step_score _ _ cm _ n _ mol_voxel _ Hs Hg).
      rewrite IH by (intros H; apply add_neg_zero in H; tauto).
      cbn [app map fold_left List.length fst snd]. f_equal. lia.
    + replace (placement_step cavity_grid offset cm (score, n) (mol_pos, mol_voxel))
        with (score, n) by (unfold placement_step; rewrite Hg; reflexivity).
      rewrite IH by assumption. reflexivity.
Qed.

Lemma zero_not_neg_zero : 0%float <> neg_zero.
Proof.
  intros H. apply (f_equal Prim2SF) in H. vm_compute in H. discriminate.
Qed.

(** The specification's translated position and lookup are the code's. *)
Lemma offset_translated_translate : forall mol_pos offset,
  offset_translated mol_pos offset = translate mol_pos offset.
Proof. intros [[x y] z] [[ox oy] oz]. reflexivity. Qed.

Lemma voxel_at_grid_get : forall grid pos,
  voxel_at grid pos = grid_get grid pos.
Proof.
  intros grid pos. unfold voxel_at, grid_get.
  induction grid as [|[k v] grid IH]; [reflexivity|].
  cbn [find dict_get fst]. destruct (position_eqb k pos); [reflexivity | exact IH].
Qed.

Lemma placement_overlaps_overlaps : forall cavity_grid molecule_grid offset,
  placement_overlaps cavity_grid molecule_grid offset
  = overlaps cavity_grid molecule_grid offset.
Proof.
  intros cavity_grid molecule_grid offset. unfold placement_overlaps, overlaps.
  apply flat_map_ext. intros item.
  rewrite offset_translated_translate, voxel_at_grid_get. reflexivity.
Qed.

(** C1.  For every cavity grid, molecule grid, offset and compatibility
    matrix, [calculate_placement_score] returns the score the specification
    describes: over the molecule voxels whose offset-translated position is
    a key of the cavity grid, the sum of the matrix value of the ordered
    pair (molecule property, cavity property), else of the reversed pair,
    else 0; with at least one overlap the result is [(sum / overlap_count)
    * sqrt(overlap_count)], with none it is exactly [0.0].  In particular a
    single overlapping hydrophobic pair at offset (0,0,0), under the matrix
    [{('hydrophobic','hydrophobic'): 2.0}], scores [2.0].  At the offset
    (3,1,2) the voxels compared are those at position plus offset: the
    molecule voxels at (0,0,0) and (1,0,0) meet the cavity voxels at
    (3,1,2) and (4,1,2), not the one at (0,0,0). *)
Theorem calculate_placement_score_spec :
  (forall cavity_grid molecule_grid offset compatibility_matrix,
     calculate_placement_score cavity_grid molecule_grid offset compatibility_matrix
     = placement_score_spec cavity_grid molecule_grid offset compatibility_matrix)
  /\
  calculate_placement_score
    [((0, 0, 0), mkVoxel (0, 0, 0) "hydrophobic" 1 0.5 None)]
    [((0, 0, 0), mkVoxel (0, 0, 0) "hydrophobic" 1 0.5 None)]
    (0, 0, 0)
    [(("hydrophobic"%string, "hydrophobic"%string), 2%float)] = 2%float
  /\
  (let cavity_grid :=
     [((0, 0, 0), mkVoxel (0, 0, 0) "polar" 1 0.5 None);
      ((3, 1, 2), mkVoxel (3, 1, 2) "hydrophobic" 1 0.5 None);
      ((4, 1, 2), mkVoxel (4, 1, 2) "polar" 1 0.5 None)] in
   let molecule_grid :=
     [((0, 0, 0), mkVoxel (0, 0, 0) "hydrophobic" 1 0.5 None);
      ((1, 0, 0), mkVoxel (1, 0, 0) "polar" 1 0.5 None)] in
   calculate_placement_score cavity_grid molecule_grid (3, 1, 2)
     default_compatibility_matrix
   = ((2 + 1.5) / 2 * PrimFloat.sqrt 2)%float
   /\
   calculate_placement_score cavity_grid molecule_grid (0, 0, 0)
     default_compatibility_matrix
   = (-1)%float
   /\
   calculate_placement_score cavity_grid molecule_grid (2, 1, 3)
     default_compatibility_matrix
   = 0%float).
Proof.
  split; [|split; [vm_compute; reflexivity|]].
  - intros cavity_grid molecule_grid offset cm.
    unfold calculate_placement_score, placement_score_spec.
    rewrite (placement_loop_spec cavity_grid offset cm molecule_grid 0%float 0
               zero_not_neg_zero).
    rewrite placement_overlaps_overlaps.
    cbv zeta.
    set (contributions := map _ (overlaps cavity_grid molecule_grid offset)).
    change (0 + Z.of_nat (List.length contributions))
      with (Z.of_nat (List.length contributions)).
    destruct contributions as [|v l]; [reflexivity|].
    change (float_sum (v :: l)) with (fold_left PrimFloat.add (v :: l) 0%float).
    assert (Hpos : 0 < Z.of_nat (List.length (v :: l))) by (simpl; lia).
    apply Z.ltb_lt in Hpos as Hlt. rewrite Hlt.
    assert (Hne : (Z.of_nat (List.length (v :: l)) =? 0) = false)
      by (apply Z.eqb_neq; lia).
    rewrite Hne. reflexivity.
  - cbv zeta. split; [|split]; vm_compute; reflexivity.
Qed.

(** * The translation search *)

Lemma not_eqb_of_not_ltb : forall x y z : float,
  (x <? y)%float = true -> (x <? z)%float = false -> (z =? y)%float = false.
Proof.
  intros x y z Hxy Hxz. destruct (z =? y)%float eqn:E; [|reflexivity].
  rewrite (ltb_eqb_r x y z Hxy E) in Hxz. discriminate.
Qed.

Lemma not_ltb_of_not_ltb : forall x y z : float,
  (x <? y)%float = true -> (x <? z)%float = false -> (y <? z)%float = false.
Proof.
  intros x y z Hxy Hxz. destruct (y <? z)%float eqn:E; [|reflexivity].
  rewrite (ltb_trans x y z Hxy E) in Hxz. discriminate.
Qed.

Lemma best_so_far_step : forall cavity_grid molecule_grid compatibility_matrix
    gap_penalty (done : list position) (st : float * position) (p : position),
  best_so_far (candidate_value cavity_grid molecule_grid compatibility_matrix
                               gap_penalty) done st ->
  best_so_far (candidate_value cavity_grid molecule_grid compatibility_matrix
                               gap_penalty) (done ++ [p])
    (alignment_step cavity_grid molecule_grid compatibility_matrix gap_penalty st p).
Proof.
  intros cavity_grid molecule_grid cm gap done [b o] p.
  set (value := candidate_value cavity_grid molecule_grid cm gap).
  unfold alignment_step. fold (value p).
  change (calculate_placement_score cavity_grid molecule_grid p cm + gap)%float
    with (value p).
  intros Inv.
  destruct (b <? value p)%float eqn:Hlt.
  - (* the candidate becomes the best *)
    right. exists (List.length done). cbn [fst snd].
    assert (Hninf : (neg_infinity <? value p)%float = true).
    { destruct Inv as [(Hb & _ & _) | (i & _ & _ & Hb & _)]; cbn [fst snd] in Hb.
      - rewrite <- Hb. exact Hlt.
      - exact (ltb_trans _ _ _ Hb Hlt). }
    assert (Hdone : forall q, In q done -> (b <? value q)%float = false).
    { destruct Inv as [(Hb & _ & Hall) | (i & _ & _ & _ & Hall & _)];
        cbn [fst snd] in *; [subst b|]; exact Hall. }
    repeat split.
    + rewrite nth_error_app2 by lia. rewrite Nat.sub_diag. reflexivity.
    + exact Hninf.
    + intros q Hq. apply in_app_or in Hq. destruct Hq as [Hq | [<- | []]].
      * exact (not_ltb_of_not_ltb _ _ _ Hlt (Hdone q Hq)).
      * apply ltb_irrefl.
    + intros j q Hj Hq. rewrite nth_error_app1 in Hq by assumption.
      apply nth_error_In in Hq.
      exact (not_eqb_of_not_ltb _ _ _ Hlt (Hdone q Hq)).
  - (* the state is kept *)
    destruct Inv as [(Hb & Ho & Hall) | (i & Hi & Hv & Hb & Hall & Hfirst)];
      cbn [fst snd] in *.
    + left. cbn [fst snd]. repeat split; try assumption.
      intros q Hq. apply in_app_or in Hq. destruct Hq as [Hq | [<- | []]].
      * exact (Hall q Hq).
      * rewrite <- Hb. exact Hlt.
    + right. exists i. cbn [fst snd].
      assert (Hi' : (i < List.length done)%nat).
      { apply nth_error_Some. rewrite Hi. discriminate. }
      repeat split; try assumption.
      * rewrite nth_error_app1 by assumption. exact Hi.
      * intros q Hq. apply in_app_or in Hq. destruct Hq as [Hq | [<- | []]].
        -- exact (Hall q Hq).
        -- exact Hlt.
      * intros j q Hj Hq. rewrite nth_error_app1 in Hq by lia.
        exact (Hfirst j q Hj Hq).
Qed.

Lemma best_so_far_loop : forall cavity_grid molecule_grid compatibility_matrix
    gap_penalty (todo done : list position) (st : float * position),
  best_so_far (candidate_value cavity_grid molecule_grid compatibility_matrix
                               gap_penalty) done st ->
  best_so_far (candidate_value cavity_grid molecule_grid compatibility_matrix
                               gap_penalty) (done ++ todo)
    (fold_left (alignment_step cavity_grid molecule_grid compatibility_matrix
                               gap_penalty) todo st).
Proof.
  intros cavity_grid molecule_grid cm gap todo.
  induction todo as [|p todo IH]; intros done st Inv; simpl.
  - rewrite app_nil_r. exact Inv.
  - replace (done ++ p :: todo) with ((done ++ [p]) ++ todo)
      by (rewrite <- app_assoc; reflexivity).
    apply IH. apply best_so_far_step. exact Inv.
Qed.

Lemma spatial_alignment_best_so_far : forall cavity_grid molecule_grid
    compatibility_matrix gap_penalty,
  best_so_far (candidate_value cavity_grid molecule_grid compatibility_matrix
                               gap_penalty)
    (dict_keys cavity_grid)
    (spatial_alignment cavity_grid molecule_grid compatibility_matrix gap_penalty).
Proof.
  intros cavity_grid molecule_grid cm gap. unfold spatial_alignment.
  apply (best_so_far_loop cavity_grid molecule_grid cm gap
           (dict_keys cavity_grid) []).
  left. cbn [fst snd]. repeat split. intros p [].
Qed.

(** C2, as the code has it.  [spatial_alignment] takes the keys of the
    cavity grid as its candidates and gives each the value
    [calculate_placement_score(...) + gap_penalty].  When some candidate's
    value is greater than [-inf], it returns a candidate together with its
    value, which is greater than [-inf] (so no NaN), such that every
    candidate's value is NaN or at most the returned one, and no earlier
    candidate (in the grid's key order) has an equal value.  When no
    candidate's value is greater than [-inf] (every value is [-inf] or NaN,
    or the cavity grid is empty) it returns [-inf] with the offset
    (0, 0, 0). *)
Theorem spatial_alignment_first_maximum :
  forall cavity_grid molecule_grid compatibility_matrix gap,
    let keys := dict_keys cavity_grid in
    let value := candidate_value cavity_grid molecule_grid compatibility_matrix gap in
    let result := spatial_alignment cavity_grid molecule_grid compatibility_matrix gap in
    ((exists p, In p keys /\ (neg_infinity <? value p)%float = true) ->
     exists i : nat,
       nth_error keys i = Some (snd result) /\
       fst result = value (snd result) /\
       (neg_infinity <? fst result)%float = true /\
       (forall p, In p keys ->
          is_nan (value p) = true \/ (value p <=? fst result)%float = true) /\
       (forall j p, (j < i)%nat -> nth_error keys j = Some p ->
                    (value p =? fst result)%float = false))
    /\
    ((forall p, In p keys -> (neg_infinity <? value p)%float = false) ->
     result = (neg_infinity, (0, 0, 0)))
    /\
    (cavity_grid = [] -> result = (neg_infinity, (0, 0, 0))).
Proof.
  intros cavity_grid molecule_grid cm gap keys value result.
  pose proof (spatial_alignment_best_so_far cavity_grid molecule_grid cm gap) as Inv.
  fold keys value result in Inv.
  split; [|split].
  - intros (p & Hp & Hv).
    destruct Inv as [(Hb & _ & Hall) | (i & Hi & Hval & Hb & Hmax & Hfirst)].
    + rewrite (Hall p Hp) in Hv. discriminate.
    + exists i. repeat split; try assumption.
      intros q Hq. destruct (is_nan (value q)) eqn:Hnan; [left; reflexivity|].
      right. apply ltb_false_leb.
      * exact (ltb_is_nan_r _ _ Hb).
      * exact Hnan.
      * exact (Hmax q Hq).
  - intros Hnone.
    destruct Inv as [(Hb & Ho & _) | (i & Hi & Hval & Hb & _ & _)].
    + apply injective_projections; assumption.
    + apply nth_error_In in Hi. rewrite Hval in Hb.
      rewrite (Hnone _ Hi) in Hb. discriminate.
  - intros ->. reflexivity.
Qed.

(** Two candidates with the same best value: the first one is returned. *)
Lemma spatial_alignment_first_maximum_witness :
  let cavity_grid :=
    [((1, 0, 0), mkVoxel (1, 0, 0) "hydrophobic" 1 0.5 None);
     ((5, 0, 0), mkVoxel (5, 0, 0) "hydrophobic" 1 0.5 None)] in
  let molecule_grid := [((0, 0, 0), mkVoxel (0, 0, 0) "hydrophobic" 1 0.5 None)] in
  let value :=
    candidate_value cavity_grid molecule_grid default_compatibility_matrix (-1) in
  let result :=
    spatial_alignment cavity_grid molecule_grid default_compatibility_matrix (-1) in
  result = (1%float, (1, 0, 0)) /\
  exists i : nat,
    nth_error (dict_keys cavity_grid) i = Some (snd result) /\
    fst result = value (snd result) /\
    (neg_infinity <? fst result)%float = true /\
    (forall p, In p (dict_keys cavity_grid) ->
       is_nan (value p) = true \/ (value p <=? fst result)%float = true) /\
    (forall j p, (j < i)%nat -> nth_error (dict_keys cavity_grid) j = Some p ->
                 (value p =? fst result)%float = false).
Proof.
  cbv zeta. split; [vm_compute; reflexivity|].
  apply (proj1 (spatial_alignment_first_maximum
                  [((1, 0, 0), mkVoxel (1, 0, 0) "hydrophobic" 1 0.5 None);
                   ((5, 0, 0), mkVoxel (5, 0, 0) "hydrophobic" 1 0.5 None)]
                  [((0, 0, 0), mkVoxel (0, 0, 0) "hydrophobic" 1 0.5 None)]
                  default_compatibility_matrix (-1)%float)).
  exists (1, 0, 0). split; [left; reflexivity | vm_compute; reflexivity].
Defined.

(** C2 as stated fails: with a gap penalty of [-inf] the only candidate,
    (1, 0, 0), has the greatest value there is among the candidates, and
    yet the offset returned is (0, 0, 0), which is no candidate. *)
Lemma spatial_alignment_minus_infinity_gap :
  let cavity_grid := [((1, 0, 0), mkVoxel (1, 0, 0) "hydrophobic" 1 0.5 None)] in
  dict_keys cavity_grid = [(1, 0, 0)] /\
  candidate_value cavity_grid [] [] neg_infinity (1, 0, 0) = neg_infinity /\
  spatial_alignment cavity_grid [] [] neg_infinity = (neg_infinity, (0, 0, 0)).
Proof. vm_compute. repeat split. Qed.

(** The same with finite inputs only: the sum of two finite scores
    overflows to [-inf]. *)
Lemma spatial_alignment_overflow :
  let cavity_grid := [((1, 0, 0), mkVoxel (1, 0, 0) "hydrophobic" 1 0.5 None)] in
  let molecule_grid := [((0, 0, 0), mkVoxel (0, 0, 0) "hydrophobic" 1 0.5 None)] in
  let matrix := [(("hydrophobic"%string, "hydrophobic"%string), (-1e308)%float)] in
  candidate_value cavity_grid molecule_grid matrix (-1e308) (1, 0, 0) = neg_infinity /\
  spatial_alignment cavity_grid molecule_grid matrix (-1e308)
  = (neg_infinity, (0, 0, 0)).
Proof. vm_compute. repeat split. Qed.

(** ** Determinism *)

(** One iteration of the scoring loop reads and does not write. *)
Lemma placement_step_call_reads :
  forall (rng : Type) cavity_grid offset compatibility_matrix st item (w : World rng),
    placement_step_call cavity_grid offset compatibility_matrix st item w
    = (Normal (placement_step (grids w cavity_grid) offset
                 (matrices w compatibility_matrix) st item), w).
Proof.
  intros rng c offset cm [score n] [mol_pos mol_voxel] w.
  unfold placement_step_call, placement_step, then_action, grid_contains,
    grid_getitem, matrix_contains, matrix_getitem, unit_action.
  cbv beta.
  destruct (grid_get (grids w c) (translate mol_pos offset))
    as [cavity_voxel|] eqn:Hg;
    cbv beta iota; rewrite ?Hg; [|reflexivity].
  cbv beta iota.
  destruct (matrix_get (matrices w cm)
              (property_type mol_voxel, property_type cavity_voxel)) eqn:Hp;
    cbv beta iota; rewrite ?Hp; [reflexivity|].
  destruct (matrix_get (matrices w cm)
              (property_type cavity_voxel, property_type mol_voxel)) eqn:Hr;
    cbv beta iota; rewrite ?Hr; reflexivity.
Qed.

(** A loop whose body only reads computes the fold of the pure body. *)
Lemma for_each_reads :
  forall (rng S X : Type) (body : S -> X -> action rng S) (step : S -> X -> S)
         (w : World rng),
    (forall s x, body s x w = (Normal (step s x), w)) ->
    forall l s, for_each l body s w = (Normal (fold_left step l s), w).
Proof.
  intros rng S X body step w Hbody l.
  induction l as [|x l IH]; intros s; [reflexivity|].
  cbn [for_each fold_left]. unfold then_action. rewrite Hbody. apply IH.
Qed.

Lemma calculate_placement_score_call_reads :
  forall (rng : Type) cavity_grid molecule_grid offset compatibility_matrix
         (w : World rng),
    calculate_placement_score_call cavity_grid molecule_grid offset
      compatibility_matrix w
    = (Normal (calculate_placement_score (grids w cavity_grid)
                 (grids w molecule_grid) offset
                 (matrices w compatibility_matrix)), w).
Proof.
  intros rng c m offset cm w.
  unfold calculate_placement_score_call, calculate_placement_score, then_action,
    grid_items.
  rewrite (for_each_reads rng _ _ _
             (placement_step (grids w c) offset (matrices w cm)) w)
    by (intros s x; apply placement_step_call_reads).
  destruct (fold_left (placement_step (grids w c) offset (matrices w cm))
                      (grids w m) (0%float, 0)) as [score n].
  reflexivity.
Qed.

Lemma spatial_alignment_call_reads :
  forall (rng : Type) cavity_grid molecule_grid compatibility_matrix gap_penalty
         (w : World rng),
    spatial_alignment_call cavity_grid molecule_grid compatibility_matrix
      gap_penalty w
    = (Normal (spatial_alignment (grids w cavity_grid) (grids w molecule_grid)
                 (matrices w compatibility_matrix) gap_penalty), w).
Proof.
  intros rng c m cm gap w.
  unfold spatial_alignment_call, spatial_alignment, then_action, grid_keys.
  apply for_each_reads. intros [best_score best_offset] cavity_pos.
  unfold alignment_step_call, alignment_step, then_action.
  rewrite calculate_placement_score_call_reads.
  destruct (best_score <? _)%float; reflexivity.
Qed.

(** The premise of the claim is needed, and the interpreter can tell: when
    something writes to the cavity dictionary between two invocations, the
    second one sees another cavity grid and returns another result. *)
Lemma spatial_alignment_after_a_write :
  let w :=
    mkWorld (fun address =>
               match address with
               | O => [((1, 0, 0), mkVoxel (1, 0, 0) "polar" 1 0.5 None)]
               | _ => [((0, 0, 0), mkVoxel (0, 0, 0) "hydrophobic" 1 0.5 None)]
               end)
            (fun _ => default_compatibility_matrix) tt in
  fst ((r1 <~ spatial_alignment_call 0 1 0 (-1) ;;
        _ <~ grid_setitem 0 (5, 0, 0) (mkVoxel (5, 0, 0) "hydrophobic" 1 0.5 None) ;;
        r2 <~ spatial_alignment_call 0 1 0 (-1) ;;
        unit_action (r1, r2)) w)
  = Normal (((-2)%float, (1, 0, 0)), (1%float, (5, 0, 0))).
Proof. vm_compute. reflexivity. Qed.

(** C9.  Two invocations of [spatial_alignment] with identical cavity grid,
    molecule grid, compatibility matrix and gap penalty return identical
    (score, offset) results.  An invocation raises nothing and leaves the
    interpreter as it found it: it writes to none of the dictionaries it is
    given, nor to any other object, nor to numpy's generator; so a second
    invocation after it finds the same arguments and returns the same pair.
    And the result is a function of the contents of the three dictionaries
    and of the gap penalty alone: two invocations in interpreters that
    differ in everything else return the same pair. *)
Theorem spatial_alignment_deterministic :
  forall (rng : Type) (cavity_grid molecule_grid compatibility_matrix : nat)
         (gap_penalty : float),
    (forall w : World rng,
       spatial_alignment_call cavity_grid molecule_grid compatibility_matrix
         gap_penalty w
       = (Normal (spatial_alignment (grids w cavity_grid) (grids w molecule_grid)
                    (matrices w compatibility_matrix) gap_penalty), w))
    /\
    (forall w : World rng,
       exists r,
         (r1 <~ spatial_alignment_call cavity_grid molecule_grid
                  compatibility_matrix gap_penalty ;;
          r2 <~ spatial_alignment_call cavity_grid molecule_grid
                  compatibility_matrix gap_penalty ;;
          unit_action (r1, r2)) w
         = (Normal (r, r), w))
    /\
    (forall w1 w2 : World rng,
       grids w1 cavity_grid = grids w2 cavity_grid ->
       grids w1 molecule_grid = grids w2 molecule_grid ->
       matrices w1 compatibility_matrix = matrices w2 compatibility_matrix ->
       fst (spatial_alignment_call cavity_grid molecule_grid compatibility_matrix
              gap_penalty w1)
       = fst (spatial_alignment_call cavity_grid molecule_grid compatibility_matrix
                gap_penalty w2)).
Proof.
  intros rng c m cm gap. split; [|split].
  - intros w. apply spatial_alignment_call_reads.
  - intros w. eexists. unfold then_action.
    rewrite !spatial_alignment_call_reads. reflexivity.
  - intros w1 w2 Hc Hm Hcm. rewrite !spatial_alignment_call_reads.
    cbn [fst]. rewrite Hc, Hm, Hcm. reflexivity.
Qed.

(** Two interpreters that hold the same three dictionaries at the
    addresses 0, 1 and 0, and differ in the generator's state and in the
    other objects on the heap. *)
Lemma spatial_alignment_deterministic_witness :
  let cavity :=
    [((1, 0, 0), mkVoxel (1, 0, 0) "hydrophobic" 1 0.5 None);
     ((5, 0, 0), mkVoxel (5, 0, 0) "hydrophobic" 1 0.5 None)] in
  let molecule := [((0, 0, 0), mkVoxel (0, 0, 0) "hydrophobic" 1 0.5 None)] in
  let w1 :=
    mkWorld (fun address => match address with O => cavity | _ => molecule end)
            (fun _ => default_compatibility_matrix) 0 in
  let w2 :=
    mkWorld (fun address =>
               match address with
               | O => cavity
               | S O => molecule
               | _ => []
               end)
            (fun address =>
               match address with
               | O => default_compatibility_matrix
               | _ => []
               end) 7 in
  fst (spatial_alignment_call 0 1 0 (-1) w1)
  = fst (spatial_alignment_call 0 1 0 (-1) w2).
Proof.
  cbv zeta.
  apply (proj2 (proj2 (spatial_alignment_deterministic Z 0%nat 1%nat 0%nat
                         (-1)%float)));
    reflexivity.
Defined.

(** * Construction of voxels *)

(** C8.  Constructing a [Voxel] whose accessibility or flexibility is
    outside [0, 1] raises a [ValueError]; constructing one with both inside
    [0, 1] succeeds and stores the values as given (nothing is clamped);
    hence every constructed [Voxel] has both values in [0, 1]. *)
Theorem Voxel_new_validates :
  forall pos ptype acc flex residue,
    (in_unit_interval acc = false \/ in_unit_interval flex = false ->
     exists msg, Voxel_new pos ptype acc flex residue = Raised (ValueError msg))
    /\
    (in_unit_interval acc = true /\ in_unit_interval flex = true ->
     Voxel_new pos ptype acc flex residue
     = Returned (mkVoxel pos ptype acc flex residue))
    /\
    (forall v, Voxel_new pos ptype acc flex residue = Returned v ->
       v = mkVoxel pos ptype acc flex residue /\
       (0 <=? accessibility v)%float = true /\
       (accessibility v <=? 1)%float = true /\
       (0 <=? flexibility v)%float = true /\
       (flexibility v <=? 1)%float = true).
Proof.
  intros pos ptype acc flex residue.
  unfold Voxel_new, Voxel_post_init. cbn [accessibility flexibility bind].
  split; [|split].
  - intros [Ha | Hf].
    + rewrite Ha. cbn. eauto.
    + destruct (in_unit_interval acc); cbn; [rewrite Hf; cbn|]; eauto.
  - intros [Ha Hf]. rewrite Ha, Hf. reflexivity.
  - intros v Hv.
    destruct (in_unit_interval acc) eqn:Ha; cbn in Hv; [|discriminate].
    destruct (in_unit_interval flex) eqn:Hf; cbn in Hv; [|discriminate].
    injection Hv as <-. cbn [accessibility flexibility].
    unfold in_unit_interval in Ha, Hf.
    apply andb_prop in Ha. apply andb_prop in Hf. tauto.
Qed.

(** The constructions of the test suite: accessibility 1.5 and flexibility
    -0.1 are refused, the values 0.8 and 0.3 are accepted as they are. *)
Lemma Voxel_new_validates_witness :
  (exists msg, Voxel_new (0, 0, 0) "polar" 1.5 0.5 None = Raised (ValueError msg)) /\
  (exists msg, Voxel_new (0, 0, 0) "polar" 1 (-0.1) None = Raised (ValueError msg)) /\
  Voxel_new (1, 2, 3) "hydrophobic" 0.8 0.3 (Some "LEU76"%string)
  = Returned (mkVoxel (1, 2, 3) "hydrophobic" 0.8 0.3 (Some "LEU76"%string)).
Proof.
  split; [|split].
  - apply (proj1 (Voxel_new_validates (0, 0, 0) "polar" 1.5 0.5 None)).
    left. vm_compute. reflexivity.
  - apply (proj1 (Voxel_new_validates (0, 0, 0) "polar" 1 (-0.1) None)).
    right. vm_compute. reflexivity.
  - apply (proj1 (proj2 (Voxel_new_validates (1, 2, 3) "hydrophobic" 0.8 0.3
                           (Some "LEU76"%string)))).
    split; vm_compute; reflexivity.
Defined.

(** * The public entry point *)

(** C10.  For every docker, cavity grid, molecule grid and compatibility
    matrix (given or defaulted), [SpatialDocking.align] raises a [TypeError]
    and produces no result: it calls [spatial_alignment] with the keyword
    [max_translation], which is not one of its parameters.  The keywords of
    that call do not include [gap_penalty]: the configured gap penalty is
    not forwarded. *)
Theorem SpatialDocking_align_raises_TypeError :
  forall self cavity_grid molecule_grid compatibility_matrix,
    SpatialDocking_align self cavity_grid molecule_grid compatibility_matrix
    = Raised (TypeError
        "spatial_alignment() got an unexpected keyword argument 'max_translation'")
    /\
    has_parameter spatial_alignment_signature "max_translation" = false
    /\
    forall matrix,
      dict_get String.eqb
        (align_keywords self cavity_grid molecule_grid matrix) "gap_penalty"%string
      = None.
Proof.
  intros self cavity_grid molecule_grid cm.
  split; [|split].
  - unfold SpatialDocking_align, call_spatial_alignment, bind_keywords,
      align_keywords.
    cbn [check_keywords]. reflexivity.
  - reflexivity.
  - intros matrix. reflexivity.
Qed.

(** * Torsion states *)

Section Product.
Context {A : Type}.

Lemma length_heads : forall (l : list (list A)) (pool : list A),
  List.length (flat_map (fun x => map (cons x) l) pool)
  = (List.length pool * List.length l)%nat.
Proof.
  intros l pool. induction pool as [|x pool IH]; simpl; [reflexivity|].
  rewrite length_app, length_map, IH. reflexivity.
Qed.

Lemma product_length : forall (pool : list A) (n : nat),
  List.length (product pool n) = (List.length pool ^ n)%nat.
Proof.
  intros pool n. induction n as [|n IH]; simpl; [reflexivity|].
  rewrite length_heads, IH. reflexivity.
Qed.

Lemma product_In : forall (pool : list A) (n : nat) (t : list A),
  In t (product pool n) <-> List.length t = n /\ Forall (fun a => In a pool) t.
Proof.
  intros pool n. induction n as [|n IH]; intros t; simpl.
  - split.
    + intros [<- | []]. split; [reflexivity | constructor].
    + intros [Hl _]. left. destruct t; [reflexivity | discriminate].
  - rewrite in_flat_map. split.
    + intros (x & Hx & Ht). apply in_map_iff in Ht.
      destruct Ht as (t' & <- & Ht'). apply IH in Ht'. destruct Ht' as [Hl Hall].
      split; [simpl; congruence | constructor; assumption].
    + intros [Hl Hall]. destruct t as [|x t']; [discriminate|].
      inversion Hall; subst. exists x. split; [assumption|].
      apply in_map. apply IH. split; [simpl in Hl; congruence | assumption].
Qed.

Lemma NoDup_heads : forall (l : list (list A)) (pool : list A),
  NoDup l -> NoDup pool -> NoDup (flat_map (fun x => map (cons x) l) pool).
Proof.
  intros l pool Hl Hpool. induction Hpool as [|x pool Hx Hpool IH]; simpl.
  - constructor.
  - apply NoDup_app.
    + apply NoDup_map_NoDup_ForallPairs; [|assumption].
      intros t1 t2 _ _ E. congruence.
    + exact IH.
    + intros t Ht Ht'. apply in_map_iff in Ht. destruct Ht as (t1 & <- & _).
      apply in_flat_map in Ht'. destruct Ht' as (y & Hy & Ht').
      apply in_map_iff in Ht'. destruct Ht' as (t2 & E & _).
      injection E as -> _. contradiction.
Qed.

Lemma product_NoDup : forall (pool : list A) (n : nat),
  NoDup pool -> NoDup (product pool n).
Proof.
  intros pool n Hpool. induction n as [|n IH]; simpl.
  - constructor; [intros [] | constructor].
  - apply NoDup_heads; assumption.
Qed.

End Product.

Lemma map_heads : forall {A B : Type} (f : A -> B) (l : list (list A)) (pool : list A),
  flat_map (fun y => map (cons y) (map (map f) l)) (map f pool)
  = map (map f) (flat_map (fun x => map (cons x) l) pool).
Proof.
  intros A B f l pool. induction pool as [|x rest IH]; simpl; [reflexivity|].
  rewrite map_app, IH, !map_map. reflexivity.
Qed.

Lemma product_map : forall {A B : Type} (f : A -> B) (pool : list A) (n : nat),
  product (map f pool) n = map (map f) (product pool n).
Proof.
  intros A B f pool n. induction n as [|n IH]; simpl; [reflexivity|].
  rewrite IH. apply map_heads.
Qed.

Lemma range_In : forall n i, In i (range n) <-> 0 <= i < n.
Proof.
  intros n i. unfold range. rewrite in_map_iff. split.
  - intros (k & <- & Hk). apply in_seq in Hk. lia.
  - intros Hi. exists (Z.to_nat i). split; [lia | apply in_seq; lia].
Qed.

Lemma range_NoDup : forall n, NoDup (range n).
Proof.
  intros n. unfold range. apply NoDup_map_NoDup_ForallPairs.
  - intros a b _ _ E. lia.
  - apply seq_NoDup.
Qed.

Lemma range_length : forall n, List.length (range n) = Z.to_nat n.
Proof. intros n. unfold range. rewrite length_map, length_seq. reflexivity. Qed.

(** C7.  For every [n_bonds >= 0] and [torsion_steps >= 1],
    [generate_torsion_states] returns exactly [torsion_steps ** n_bonds]
    tuples, each of length [n_bonds] with every component one of the angles
    [i * (360 / torsion_steps)], [0 <= i < torsion_steps]; the tuples are
    the images of the index combinations, each of which occurs exactly once
    (so that no tuple repeats when the angles are distinct).  With 2 bonds
    and 4 steps these are the 16 pairs over 0, 90, 180, 270. *)
Theorem generate_torsion_states_product :
  (forall n_bonds torsion_steps,
     0 <= n_bonds -> 1 <= torsion_steps ->
     exists states,
       generate_torsion_states n_bonds torsion_steps = Returned states /\
       Z.of_nat (List.length states) = torsion_steps ^ n_bonds /\
       (forall t, In t states ->
          Z.of_nat (List.length t) = n_bonds /\
          forall a, In a t ->
            exists i, 0 <= i < torsion_steps /\ a = torsion_angle torsion_steps i) /\
       states = map (map (torsion_angle torsion_steps))
                    (index_tuples torsion_steps (Z.to_nat n_bonds)) /\
       NoDup (index_tuples torsion_steps (Z.to_nat n_bonds)) /\
       (forall idx,
          In idx (index_tuples torsion_steps (Z.to_nat n_bonds)) <->
          Z.of_nat (List.length idx) = n_bonds /\
          forall i, In i idx -> 0 <= i < torsion_steps) /\
       (NoDup (map (torsion_angle torsion_steps) (range torsion_steps)) ->
        NoDup states))
  /\
  generate_torsion_states 2 4
  = Returned
      [ [0; 0]; [0; 90]; [0; 180]; [0; 270];
        [90; 0]; [90; 90]; [90; 180]; [90; 270];
        [180; 0]; [180; 90]; [180; 180]; [180; 270];
        [270; 0]; [270; 90]; [270; 180]; [270; 270] ]%float.
Proof.
  split; [|vm_compute; reflexivity].
  intros n_bonds torsion_steps Hn Hs.
  unfold generate_torsion_states, index_tuples.
  assert (E1 : (n_bonds <? 0) = false) by (apply Z.ltb_ge; lia).
  rewrite E1. eexists. split; [reflexivity|].
  split; [|split; [|split; [|split; [|split]]]].
  - rewrite product_length, length_map, range_length, Nat2Z.inj_pow.
    rewrite !Z2Nat.id by lia. reflexivity.
  - intros t Ht. apply product_In in Ht. destruct Ht as [Hl Hall]. split; [lia|].
    intros a Ha. rewrite Forall_forall in Hall. specialize (Hall a Ha).
    apply in_map_iff in Hall. destruct Hall as (i & <- & Hi).
    exists i. split; [apply range_In; exact Hi | reflexivity].
  - apply product_map.
  - apply product_NoDup, range_NoDup.
  - intros idx. rewrite product_In, Forall_forall. split.
    + intros [Hl Hall]. split; [lia|]. intros i Hi. apply range_In, Hall, Hi.
    + intros [Hl Hall]. split; [lia|]. intros i Hi. apply range_In, Hall, Hi.
  - intros Hangles. apply product_NoDup. exact Hangles.
Qed.

(** Three bonds at the default six steps: 216 states, none repeated. *)
Lemma generate_torsion_states_product_witness :
  exists states,
    generate_torsion_states 3 6 = Returned states /\
    Z.of_nat (List.length states) = 216 /\
    NoDup states.
Proof.
  destruct (proj1 generate_torsion_states_product 3 6) as
    (states & Hret & Hlen & _ & _ & _ & _ & Hnodup); [lia | lia |].
  exists states. split; [exact Hret|]. split; [exact Hlen|].
  apply Hnodup. vm_compute.
  repeat (constructor; [cbn; intros H; repeat (destruct H as [H|H];
    [apply (f_equal Prim2SF) in H; vm_compute in H; discriminate|]); exact H|]).
  constructor.
Defined.

(** * The Pareto frontier *)

(** The test the code performs is the dominance of the specification. *)
Lemma dominates_spec : forall Q P : dict string float,
  dominates Q P = true <-> Dominates Q P.
Proof.
  intros Q P. unfold dominates, Dominates.
  rewrite andb_true_iff, forallb_forall, existsb_exists. tauto.
Qed.

Lemma pareto_step_undominated :
  forall cavity_grid molecule_grid objectives st pos,
    undominated_by_earlier st ->
    undominated_by_earlier (pareto_step cavity_grid molecule_grid objectives st pos).
Proof.
  intros cavity_grid molecule_grid objectives [frontier all] pos Inv.
  unfold pareto_step.
  set (scores := evaluate_objectives objectives cavity_grid molecule_grid pos).
  assert (Hold : forall P, In P frontier ->
            exists i : nat,
              nth_error (all ++ [(pos, scores)]) i = Some P /\
              forall j Q, (j < i)%nat ->
                nth_error (all ++ [(pos, scores)]) j = Some Q ->
                dominates (snd Q) (snd P) = false).
  { intros P HP. destruct (Inv P HP) as (i & Hi & Hearlier). cbn [fst snd] in *.
    assert (Hlt : (i < List.length all)%nat).
    { apply nth_error_Some. rewrite Hi. discriminate. }
    exists i. split.
    - rewrite nth_error_app1 by assumption. exact Hi.
    - intros j Q Hj HQ. rewrite nth_error_app1 in HQ by lia.
      exact (Hearlier j Q Hj HQ). }
  destruct (existsb (fun other => dominates (snd other) scores) all) eqn:Hdom;
    intros P HP; cbn [fst snd] in *.
  - exact (Hold P HP).
  - apply in_app_or in HP. destruct HP as [HP | [<- | []]]; [exact (Hold P HP)|].
    exists (List.length all). split.
    + rewrite nth_error_app2 by lia. rewrite Nat.sub_diag. reflexivity.
    + intros j Q Hj HQ. rewrite nth_error_app1 in HQ by assumption.
      apply nth_error_In in HQ. cbn [snd].
      destruct (dominates (snd Q) scores) eqn:E; [|reflexivity].
      assert (Hex : existsb (fun other => dominates (snd other) scores) all = true).
      { apply existsb_exists. exists Q. split; assumption. }
      congruence.
Qed.

(** What does hold of the returned frontier: no entry is dominated by a
    solution evaluated before it. *)
Lemma pareto_frontier_undominated_by_earlier :
  forall cavity_grid molecule_grid objectives,
    undominated_by_earlier (pareto_run cavity_grid molecule_grid objectives).
Proof.
  intros cavity_grid molecule_grid objectives. unfold pareto_run.
  assert (H : forall todo st, undominated_by_earlier st ->
            undominated_by_earlier
              (fold_left (pareto_step cavity_grid molecule_grid objectives) todo st)).
  { induction todo as [|pos todo IH]; intros st Inv; simpl; [exact Inv|].
    apply IH, pareto_step_undominated, Inv. }
  apply H. intros P [].
Qed.

(** C3 fails on the code.  With the two cavity positions (0,0,0) and
    (1,0,0) and the x coordinate as the only objective, both positions are
    returned, although the second, evaluated later, dominates the first. *)
Theorem pareto_frontier_keeps_dominated_solution :
  let cavity_grid :=
    [((0, 0, 0), mkVoxel (0, 0, 0) "polar" 1 0.5 None);
     ((1, 0, 0), mkVoxel (1, 0, 0) "polar" 1 0.5 None)] in
  let objectives := [("x"%string, x_coordinate)] in
  let P := ((0, 0, 0), [("x"%string, 0%float)]) in
  let Q := ((1, 0, 0), [("x"%string, 1%float)]) in
  pareto_optimal_docking cavity_grid [] objectives = [P; Q] /\
  snd (pareto_run cavity_grid [] objectives) = [P; Q] /\
  Dominates (snd Q) (snd P).
Proof.
  cbv zeta. split; [vm_compute; reflexivity|]. split; [vm_compute; reflexivity|].
  apply dominates_spec. vm_compute. reflexivity.
Qed.

(** * Degenerate inputs *)

Lemma boltzmann_empty_landscape :
  forall {F : Type} (A : arithmetic F) all_paths cavity_grid molecule_grid T,
    all_paths cavity_grid molecule_grid = [] ->
    boltzmann_ensemble_docking A all_paths cavity_grid molecule_grid T = Returned [].
Proof.
  intros F A all_paths cavity_grid molecule_grid T H.
  unfold boltzmann_ensemble_docking. rewrite H. reflexivity.
Qed.

(** C4, as the code has it.  On an empty cavity grid [spatial_alignment]
    returns the sentinel [(-inf, (0, 0, 0))], also when it is called by
    keyword, and on an empty score landscape
    [boltzmann_ensemble_docking] returns the empty dictionary: neither
    raises. *)
Theorem degenerate_inputs_return :
  (forall molecule_grid compatibility_matrix gap,
     spatial_alignment [] molecule_grid compatibility_matrix gap
     = (neg_infinity, (0, 0, 0)))
  /\
  (forall molecule_grid compatibility_matrix gap,
     call_spatial_alignment
       [ ("cavity_grid"%string, ArgGrid []);
         ("molecule_grid"%string, ArgGrid molecule_grid);
         ("compatibility_matrix"%string, ArgMatrix compatibility_matrix);
         ("gap_penalty"%string, ArgFloat gap) ]
     = Returned (neg_infinity, (0, 0, 0)))
  /\
  (forall np_exp all_paths cavity_grid molecule_grid temperature,
     all_paths cavity_grid molecule_grid = [] ->
     boltzmann_ensemble_docking (float_arithmetic np_exp) all_paths
       cavity_grid molecule_grid temperature = Returned []).
Proof.
  split; [|split].
  - reflexivity.
  - reflexivity.
  - intros np_exp all_paths cavity_grid molecule_grid T H.
    apply boltzmann_empty_landscape. exact H.
Qed.

(** An empty landscape at 300 K. *)
Lemma degenerate_inputs_return_witness :
  boltzmann_ensemble_docking (float_arithmetic exp_approx) (fun _ _ => [])
    [] [((0, 0, 0), mkVoxel (0, 0, 0) "polar" 1 0.5 None)] 300%float
  = Returned [].
Proof.
  apply (proj2 (proj2 degenerate_inputs_return)). reflexivity.
Defined.

(** C4 as stated fails: the search on an empty cavity returns the sentinel
    and does not raise. *)
Lemma empty_cavity_returns_sentinel :
  call_spatial_alignment
    [ ("cavity_grid"%string, ArgGrid []);
      ("molecule_grid"%string,
       ArgGrid [((0, 0, 0), mkVoxel (0, 0, 0) "polar" 1 0.5 None)]);
      ("compatibility_matrix"%string, ArgMatrix default_compatibility_matrix) ]
  = Returned (neg_infinity, (0, 0, 0))
  /\
  ~ raises
      (call_spatial_alignment
         [ ("cavity_grid"%string, ArgGrid []);
           ("molecule_grid"%string,
            ArgGrid [((0, 0, 0), mkVoxel (0, 0, 0) "polar" 1 0.5 None)]);
           ("compatibility_matrix"%string, ArgMatrix default_compatibility_matrix) ]).
Proof.
  split; [vm_compute; reflexivity|].
  intros [e He]. vm_compute in He. discriminate.
Qed.

(** * Boltzmann weighting *)

Lemma position_eqb_eq : forall p q : position, position_eqb p q = true <-> p = q.
Proof.
  intros [[px py] pz] [[qx qy] qz]. unfold position_eqb.
  rewrite !andb_true_iff, !Z.eqb_eq. split.
  - intros [[-> ->] ->]. reflexivity.
  - intros E. injection E as -> -> ->. auto.
Qed.

Lemma dict_set_fresh : forall {V : Type} (d : dict position V) k v,
  ~ In k (dict_keys d) -> dict_set position_eqb d k v = d ++ [(k, v)].
Proof.
  intros V d k v. induction d as [|[k' v'] d IH]; intros Hk; simpl; [reflexivity|].
  destruct (position_eqb k' k) eqn:E.
  - apply position_eqb_eq in E. exfalso. apply Hk. left. exact E.
  - rewrite IH; [reflexivity|]. intros H. apply Hk. right. exact H.
Qed.


Section BoltzmannLoop.
Context {F : Type}.
Variable A : arithmetic F.
Variable kT : F.
Hypothesis division_defined :
  forall x, a_truediv A x kT = Returned (a_div A x kT).

Lemma boltzmann_loop : forall (todo weights : dict position F) (Z : F),
  NoDup (dict_keys weights ++ dict_keys todo) ->
  foldM (boltzmann_step A kT) todo (weights, Z)
  = Returned
      (weights ++ map (fun item => (fst item, boltzmann_weight A kT (snd item))) todo,
       fold_left (a_add A) (map (boltzmann_weight A kT) (dict_values todo)) Z).
Proof.
  induction todo as [|[pos score] todo IH]; intros weights Z Hnd.
  - simpl. rewrite app_nil_r. reflexivity.
  - cbn [foldM boltzmann_step]. rewrite division_defined. cbn [bind].
    fold (boltzmann_weight A kT score).
    rewrite dict_set_fresh.
    + rewrite IH.
      * cbn [map fst snd dict_values fold_left]. rewrite <- app_assoc. reflexivity.
      * unfold dict_keys in *. rewrite map_app, <- app_assoc. exact Hnd.
    + cbn [dict_keys map fst] in Hnd. apply NoDup_remove_2 in Hnd.
      intros H. apply Hnd. apply in_or_app. left. exact H.
Qed.

End BoltzmannLoop.

(** The loop of [boltzmann_ensemble_docking] computes the probabilities of
    the specification, whatever the arithmetic, when [-energy / kT] does not
    raise. *)
Lemma boltzmann_formula :
  forall {F : Type} (A : arithmetic F) all_paths cavity_grid molecule_grid T,
    (forall x, a_truediv A x (a_mul A (a_kB A) T)
               = Returned (a_div A x (a_mul A (a_kB A) T))) ->
    NoDup (dict_keys (all_paths cavity_grid molecule_grid)) ->
    boltzmann_ensemble_docking A all_paths cavity_grid molecule_grid T
    = Returned (boltzmann_spec A (all_paths cavity_grid molecule_grid) T).
Proof.
  intros F A all_paths cavity_grid molecule_grid T Hdiv Hnd.
  unfold boltzmann_ensemble_docking.
  rewrite (boltzmann_loop A _ Hdiv _ [] (a_zero A)) by exact Hnd.
  cbn [bind app]. unfold boltzmann_spec, partition_function.
  rewrite map_map. reflexivity.
Qed.

(** ** Exact arithmetic: the probabilities form a distribution *)











(** ** Binary64 arithmetic *)

Lemma float_division_defined : forall (np_exp : float -> float) (kT x : float),
  (kT =? 0)%float = false ->
  a_truediv (float_arithmetic np_exp) x kT
  = Returned (a_div (float_arithmetic np_exp) x kT).
Proof. intros np_exp kT x H. cbn. rewrite H. reflexivity. Qed.

Lemma float_boltzmann_formula :
  forall np_exp all_paths cavity_grid molecule_grid (T : float),
    NoDup (dict_keys (all_paths cavity_grid molecule_grid)) ->
    (0.0019872041 * T =? 0)%float = false ->
    boltzmann_ensemble_docking (float_arithmetic np_exp) all_paths
      cavity_grid molecule_grid T
    = Returned (boltzmann_spec (float_arithmetic np_exp)
                  (all_paths cavity_grid molecule_grid) T).
Proof.
  intros np_exp all_paths cavity_grid molecule_grid T Hnd HkT.
  apply boltzmann_formula; [|exact Hnd].
  intros x. apply float_division_defined. exact HkT.
Qed.






(** ** Order preservation *)




Lemma boltzmann_raises_on_zero_kT :
  forall np_exp all_paths cavity_grid molecule_grid (T : float),
    (0.0019872041 * T =? 0)%float = true ->
    all_paths cavity_grid molecule_grid <> [] ->
    raises (boltzmann_ensemble_docking (float_arithmetic np_exp) all_paths
              cavity_grid molecule_grid T).
Proof.
  intros np_exp all_paths cavity_grid molecule_grid T HkT Hne.
  unfold boltzmann_ensemble_docking.
  destruct (all_paths cavity_grid molecule_grid) as [|[pos s] rest];
    [contradiction|].
  cbn [foldM boltzmann_step a_truediv a_mul a_kB float_arithmetic].
  rewrite HkT. cbn [bind]. eexists. reflexivity.
Qed.



(** * Further properties of the translation search *)

Lemma placement_score_no_overlap :
  forall cavity_grid molecule_grid offset compatibility_matrix,
    overlaps cavity_grid molecule_grid offset = [] ->
    calculate_placement_score cavity_grid molecule_grid offset compatibility_matrix
    = 0%float.
Proof.
  intros cavity_grid molecule_grid offset cm H.
  unfold calculate_placement_score.
  rewrite (placement_loop_spec cavity_grid offset cm molecule_grid 0%float 0
             zero_not_neg_zero).
  cbv zeta. rewrite H. reflexivity.
Qed.

(** X1.  A placement in which no molecule voxel lands on a cavity key
    scores exactly 0.0, whatever the matrix; so does every placement of an
    empty molecule grid and every placement in an empty cavity grid. *)
Theorem placement_without_overlap_scores_zero :
  (forall cavity_grid molecule_grid offset compatibility_matrix,
     (forall mol_pos mol_voxel, In (mol_pos, mol_voxel) molecule_grid ->
        grid_get cavity_grid (translate mol_pos offset) = None) ->
     calculate_placement_score cavity_grid molecule_grid offset compatibility_matrix
     = 0%float)
  /\
  (forall cavity_grid offset compatibility_matrix,
     calculate_placement_score cavity_grid [] offset compatibility_matrix = 0%float)
  /\
  (forall molecule_grid offset compatibility_matrix,
     calculate_placement_score [] molecule_grid offset compatibility_matrix = 0%float).
Proof.
  assert (Hgen : forall cavity_grid molecule_grid offset,
            (forall mol_pos mol_voxel, In (mol_pos, mol_voxel) molecule_grid ->
               grid_get cavity_grid (translate mol_pos offset) = None) ->
            overlaps cavity_grid molecule_grid offset = []).
  { intros cavity_grid molecule_grid offset. unfold overlaps.
    induction molecule_grid as [|[mol_pos mol_voxel] rest IH]; intros H.
    - reflexivity.
    - cbn [flat_map fst snd]. rewrite (H mol_pos mol_voxel) by (left; reflexivity).
      cbn [app]. apply IH. intros p v Hin. apply (H p v). right. exact Hin. }
  split; [|split].
  - intros cavity_grid molecule_grid offset cm H.
    apply placement_score_no_overlap. apply Hgen. exact H.
  - intros cavity_grid offset cm. reflexivity.
  - intros molecule_grid offset cm.
    apply placement_score_no_overlap. apply Hgen. intros p v _. reflexivity.
Qed.

(** A molecule one cell to the right of a one-cell cavity, offset (0,0,0). *)
Lemma placement_without_overlap_scores_zero_witness :
  calculate_placement_score
    [((0, 0, 0), mkVoxel (0, 0, 0) "polar" 1 0.5 None)]
    [((1, 0, 0), mkVoxel (1, 0, 0) "polar" 1 0.5 None)]
    (0, 0, 0) default_compatibility_matrix = 0%float.
Proof.
  apply (proj1 placement_without_overlap_scores_zero).
  intros mol_pos mol_voxel [H | []]. injection H as <- _. reflexivity.
Defined.

(** ** Symmetric lookup *)

Lemma matrix_get_transpose : forall (m : CompatibilityMatrix) (a b : string),
  matrix_get (transpose m) (a, b) = matrix_get m (b, a).
Proof.
  intros m a b. unfold matrix_get, transpose.
  induction m as [|[[x y] v] m IH]; [reflexivity|].
  cbn [map dict_get fst snd]. unfold pair_eqb at 1 3. cbn [fst snd].
  rewrite (andb_comm (String.eqb y a)). rewrite IH. reflexivity.
Qed.

Lemma pair_score_transpose : forall (m : CompatibilityMatrix) (a b : string),
  pair_score (transpose m) a b = pair_score m b a.
Proof.
  intros m a b. unfold pair_score. rewrite !matrix_get_transpose. reflexivity.
Qed.

Lemma pair_score_symmetric : forall (m : CompatibilityMatrix) (a b : string),
  consistent m -> pair_score m a b = pair_score m b a.
Proof.
  intros m a b Hc. unfold pair_score.
  destruct (matrix_get m (a, b)) as [v|] eqn:Hab;
    destruct (matrix_get m (b, a)) as [w|] eqn:Hba; try reflexivity.
  exact (Hc a b v w Hab Hba).
Qed.

Lemma default_compatibility_matrix_consistent :
  consistent default_compatibility_matrix.
Proof.
  intros a b v w. unfold matrix_get, default_compatibility_matrix.
  cbn [dict_get]. unfold pair_eqb. cbn [fst snd].
  repeat match goal with
  | |- context [String.eqb ?s a] =>
      destruct (String.eqb_spec s a); [subst a|]
  end;
  repeat match goal with
  | |- context [String.eqb ?s b] =>
      destruct (String.eqb_spec s b); [subst b|]
  end;
  cbn; congruence.
Qed.

(** X2.  When no pair is stored in both orders with different values, the
    lookup is symmetric: a pair contributes the same whichever of its
    members is the molecule's, and reversing every key of the matrix changes
    no placement score. *)
Theorem symmetric_lookup :
  forall compatibility_matrix,
    consistent compatibility_matrix ->
    (forall a b,
       pair_score compatibility_matrix a b = pair_score compatibility_matrix b a)
    /\
    (forall cavity_grid molecule_grid offset,
       calculate_placement_score cavity_grid molecule_grid offset
         (transpose compatibility_matrix)
       = calculate_placement_score cavity_grid molecule_grid offset
           compatibility_matrix).
Proof.
  intros cm Hc. split.
  - intros a b. apply pair_score_symmetric, Hc.
  - intros cavity_grid molecule_grid offset. unfold calculate_placement_score.
    rewrite !(fun m => placement_loop_spec cavity_grid offset m molecule_grid
                         0%float 0 zero_not_neg_zero).
    cbv zeta.
    assert (E : map (fun o : Voxel * Voxel =>
                       pair_score (transpose cm) (property_type (fst o))
                                  (property_type (snd o)))
                    (overlaps cavity_grid molecule_grid offset)
                = map (fun o : Voxel * Voxel =>
                         pair_score cm (property_type (fst o))
                                    (property_type (snd o)))
                      (overlaps cavity_grid molecule_grid offset)).
    { apply map_ext. intros o. rewrite pair_score_transpose.
      symmetry. apply pair_score_symmetric, Hc. }
    rewrite E. reflexivity.
Qed.

(** The default matrix stores no pair in both orders. *)
Lemma symmetric_lookup_witness :
  pair_score default_compatibility_matrix "polar" "hydrophobic"
  = pair_score default_compatibility_matrix "hydrophobic" "polar".
Proof.
  apply (proj1 (symmetric_lookup default_compatibility_matrix
                  default_compatibility_matrix_consistent)).
Defined.

(** ** What the search returns *)

(** X3.  The score [spatial_alignment] returns is never NaN.  The result is
    either the sentinel [(-inf, (0, 0, 0))], or a key of the cavity grid
    together with a score greater than [-inf] that [score_pose] reproduces:
    it is the score of the returned pose plus the gap penalty. *)
Theorem spatial_alignment_result :
  forall self cavity_grid molecule_grid compatibility_matrix gap,
    let r := spatial_alignment cavity_grid molecule_grid compatibility_matrix gap in
    is_nan (fst r) = false /\
    (r = (neg_infinity, (0, 0, 0)) \/
     (In (snd r) (dict_keys cavity_grid) /\
      (neg_infinity <? fst r)%float = true /\
      fst r = (SpatialDocking_score_pose self cavity_grid molecule_grid (snd r)
                 (Some compatibility_matrix) + gap)%float)).
Proof.
  intros self cavity_grid molecule_grid cm gap r.
  pose proof (spatial_alignment_best_so_far cavity_grid molecule_grid cm gap) as Inv.
  fold r in Inv.
  destruct Inv as [(Hb & Ho & _) | (i & Hi & Hval & Hb & _ & _)].
  - split.
    + rewrite Hb. reflexivity.
    + left. apply injective_projections; assumption.
  - split.
    + exact (ltb_is_nan_r _ _ Hb).
    + right. split; [exact (nth_error_In _ _ Hi)|]. split; [exact Hb|].
      exact Hval.
Qed.

Lemma alignment_loop_constant :
  forall cavity_grid molecule_grid compatibility_matrix gap (v : float)
         (todo : list position) (o : position),
    (forall p, In p todo ->
       candidate_value cavity_grid molecule_grid compatibility_matrix gap p = v) ->
    fold_left (alignment_step cavity_grid molecule_grid compatibility_matrix gap)
              todo (v, o)
    = (v, o).
Proof.
  intros cavity_grid molecule_grid cm gap v todo o.
  induction todo as [|p todo IH]; intros H; [reflexivity|].
  cbn [fold_left]. unfold alignment_step at 2.
  fold (candidate_value cavity_grid molecule_grid cm gap p).
  rewrite (H p) by (left; reflexivity). rewrite ltb_irrefl.
  apply IH. intros q Hq. apply H. right. exact Hq.
Qed.

(** X4.  With an empty molecule grid every candidate scores
    [0.0 + gap_penalty]; when that is greater than [-inf] the search over
    a non-empty cavity grid returns it with the first cavity key. *)
Theorem spatial_alignment_empty_molecule :
  forall first_key first_voxel rest compatibility_matrix gap,
    (neg_infinity <? 0 + gap)%float = true ->
    spatial_alignment ((first_key, first_voxel) :: rest) [] compatibility_matrix gap
    = ((0 + gap)%float, first_key).
Proof.
  intros first_key first_voxel rest cm gap Hgap.
  unfold spatial_alignment. cbn [dict_keys map fst fold_left].
  unfold alignment_step at 2.
  change (calculate_placement_score ((first_key, first_voxel) :: rest) []
            first_key cm) with 0%float.
  rewrite Hgap.
  apply alignment_loop_constant. intros p _. reflexivity.
Qed.

(** An empty molecule in a two-cell cavity with the default gap penalty. *)
Lemma spatial_alignment_empty_molecule_witness :
  spatial_alignment
    [((3, 0, 0), mkVoxel (3, 0, 0) "polar" 1 0.5 None);
     ((4, 0, 0), mkVoxel (4, 0, 0) "polar" 1 0.5 None)]
    [] default_compatibility_matrix (-1)
  = ((0 + -1)%float, (3, 0, 0)).
Proof.
  apply (spatial_alignment_empty_molecule (3, 0, 0)).
  vm_compute. reflexivity.
Defined.

Lemma position_eqb_refl : forall p : position, position_eqb p p = true.
Proof.
  intros [[x y] z]. unfold position_eqb. rewrite !Z.eqb_refl. reflexivity.
Qed.





(** * Further properties of the Pareto selection *)

Lemma leb_trans : forall x y z : float,
  (x <=? y)%float = true -> (y <=? z)%float = true -> (x <=? z)%float = true.
Proof.
  intros x y z. rewrite !leb_true. intros [H1 | H1] [H2 | H2].
  - left. exact (SFcompare_trans _ _ _ _ H1 H2).
  - left. apply SFcompare_antisym in H2. exact (SFcompare_eq_r _ _ _ _ H1 H2).
  - left. exact (SFcompare_eq_l _ _ _ _ H1 H2).
  - right. exact (SFcompare_eq_l _ _ _ _ H1 H2).
Qed.

(** Dominance is transitive between score dictionaries with the same
    keys. *)
Lemma dominates_trans : forall R Q P : dict string float,
  dict_keys P = dict_keys Q ->
  dominates R Q = true -> dominates Q P = true -> dominates R P = true.
Proof.
  intros R Q P Hkeys HRQ HQP. unfold dominates in *.
  apply andb_true_iff in HRQ. destruct HRQ as [HRQa HRQe].
  apply andb_true_iff in HQP. destruct HQP as [HQPa HQPe].
  rewrite forallb_forall in HRQa, HQPa.
  apply existsb_exists in HQPe. destruct HQPe as (k & Hk & Hlt).
  apply andb_true_iff. split.
  - apply forallb_forall. intros k' Hk'.
    apply (leb_trans _ (score_at Q k')).
    + apply HQPa. exact Hk'.
    + apply HRQa. rewrite <- Hkeys. exact Hk'.
  - apply existsb_exists. exists k. split; [exact Hk|].
    apply (ltb_leb_trans _ (score_at Q k)); [exact Hlt|].
    apply HRQa. rewrite <- Hkeys. exact Hk.
Qed.

Lemma evaluate_objectives_keys :
  forall objectives cavity_grid molecule_grid pos,
    dict_keys (evaluate_objectives objectives cavity_grid molecule_grid pos)
    = dict_keys objectives.
Proof.
  intros objectives cavity_grid molecule_grid pos.
  unfold evaluate_objectives, dict_keys. rewrite map_map.
  apply map_ext. intros [name func]. reflexivity.
Qed.

(** The loop evaluates every cavity position, in order. *)
Lemma pareto_run_all_solutions :
  forall cavity_grid molecule_grid objectives,
    snd (pareto_run cavity_grid molecule_grid objectives)
    = map (fun pos =>
             (pos, evaluate_objectives objectives cavity_grid molecule_grid pos))
          (dict_keys cavity_grid).
Proof.
  intros cavity_grid molecule_grid objectives. unfold pareto_run.
  assert (H : forall todo frontier all,
            snd (fold_left (pareto_step cavity_grid molecule_grid objectives)
                           todo (frontier, all))
            = all ++ map (fun pos =>
                            (pos, evaluate_objectives objectives cavity_grid
                                    molecule_grid pos)) todo).
  { induction todo as [|pos todo IH]; intros frontier all.
    - cbn. rewrite app_nil_r. reflexivity.
    - cbn [fold_left map]. unfold pareto_step at 2.
      match goal with |- context [existsb ?f all] => destruct (existsb f all) end;
        rewrite IH, <- app_assoc; reflexivity. }
  rewrite H. reflexivity.
Qed.

Lemma pareto_step_covered :
  forall cavity_grid molecule_grid objectives st pos,
    covered_by_frontier objectives st ->
    covered_by_frontier objectives
      (pareto_step cavity_grid molecule_grid objectives st pos).
Proof.
  intros cavity_grid molecule_grid objectives [frontier all] pos
         (Hall & Hfront & Hcov).
  cbn [fst snd] in *. unfold pareto_step.
  set (scores := evaluate_objectives objectives cavity_grid molecule_grid pos).
  assert (Hkeys : dict_keys scores = dict_keys objectives)
    by apply evaluate_objectives_keys.
  destruct (existsb (fun other => dominates (snd other) scores) all) eqn:Hdom;
    unfold covered_by_frontier; cbn [fst snd].
  - (* dominated by an earlier solution: not appended *)
    apply existsb_exists in Hdom. destruct Hdom as (O & HO & HdomO).
    split; [|split].
    + intros S HS. apply in_app_or in HS. destruct HS as [HS | [<- | []]].
      * exact (Hall S HS).
      * exact Hkeys.
    + exact Hfront.
    + intros S HS. apply in_app_or in HS. destruct HS as [HS | [<- | []]].
      * exact (Hcov S HS).
      * right. cbn [snd]. destruct (Hcov O HO) as [HOf | (Q & HQ & HQO)].
        -- exists O. split; assumption.
        -- exists Q. split; [exact HQ|].
           apply (dominates_trans _ (snd O)); try assumption.
           rewrite Hkeys. symmetry. exact (Hall O HO).
  - (* appended to the frontier *)
    split; [|split].
    + intros S HS. apply in_app_or in HS. destruct HS as [HS | [<- | []]].
      * exact (Hall S HS).
      * exact Hkeys.
    + intros Q HQ. apply in_app_or in HQ. destruct HQ as [HQ | [<- | []]].
      * exact (Hfront Q HQ).
      * exact Hkeys.
    + intros S HS. apply in_app_or in HS. destruct HS as [HS | [<- | []]].
      * destruct (Hcov S HS) as [HSf | (Q & HQ & HQS)].
        -- left. apply in_or_app. left. exact HSf.
        -- right. exists Q. split; [apply in_or_app; left; exact HQ | exact HQS].
      * left. apply in_or_app. right. left. reflexivity.
Qed.

Lemma pareto_run_covered :
  forall cavity_grid molecule_grid objectives,
    covered_by_frontier objectives (pareto_run cavity_grid molecule_grid objectives).
Proof.
  intros cavity_grid molecule_grid objectives. unfold pareto_run.
  assert (H : forall todo st, covered_by_frontier objectives st ->
            covered_by_frontier objectives
              (fold_left (pareto_step cavity_grid molecule_grid objectives) todo st)).
  { induction todo as [|pos todo IH]; intros st Inv; simpl; [exact Inv|].
    apply IH, pareto_step_covered, Inv. }
  apply H. repeat split; intros S [].
Qed.

(** X6.  The returned frontier covers the evaluated set: every cavity
    position, with its scores, is either returned or dominated by a
    returned solution. *)
Theorem pareto_frontier_covers_every_position :
  forall cavity_grid molecule_grid objectives pos,
    In pos (dict_keys cavity_grid) ->
    let S := (pos, evaluate_objectives objectives cavity_grid molecule_grid pos) in
    In S (pareto_optimal_docking cavity_grid molecule_grid objectives) \/
    exists Q,
      In Q (pareto_optimal_docking cavity_grid molecule_grid objectives) /\
      Dominates (snd Q) (snd S).
Proof.
  intros cavity_grid molecule_grid objectives pos Hpos S.
  destruct (pareto_run_covered cavity_grid molecule_grid objectives)
    as (_ & _ & Hcov).
  assert (HS : In S (snd (pareto_run cavity_grid molecule_grid objectives))).
  { rewrite pareto_run_all_solutions.
    apply (in_map (fun p => (p, evaluate_objectives objectives cavity_grid
                                  molecule_grid p))). exact Hpos. }
  destruct (Hcov S HS) as [H | (Q & HQ & Hdom)].
  - left. exact H.
  - right. exists Q. split; [exact HQ|]. apply dominates_spec. exact Hdom.
Qed.

(** The dominated position of the two-cell example is covered by the
    position that dominates it. *)
Lemma pareto_frontier_covers_every_position_witness :
  let cavity_grid :=
    [((1, 0, 0), mkVoxel (1, 0, 0) "polar" 1 0.5 None);
     ((0, 0, 0), mkVoxel (0, 0, 0) "polar" 1 0.5 None)] in
  let objectives := [("x"%string, x_coordinate)] in
  let S := ((0, 0, 0), evaluate_objectives objectives cavity_grid [] (0, 0, 0)) in
  In S (pareto_optimal_docking cavity_grid [] objectives) \/
  exists Q,
    In Q (pareto_optimal_docking cavity_grid [] objectives) /\
    Dominates (snd Q) (snd S).
Proof.
  cbv zeta.
  apply (pareto_frontier_covers_every_position
           [((1, 0, 0), mkVoxel (1, 0, 0) "polar" 1 0.5 None);
            ((0, 0, 0), mkVoxel (0, 0, 0) "polar" 1 0.5 None)]
           [] [("x"%string, x_coordinate)] (0, 0, 0)).
  right. left. reflexivity.
Defined.

Lemma pareto_frontier_grows :
  forall cavity_grid molecule_grid objectives todo frontier all,
    exists added,
      fst (fold_left (pareto_step cavity_grid molecule_grid objectives)
                     todo (frontier, all))
      = frontier ++ added.
Proof.
  intros cavity_grid molecule_grid objectives todo.
  induction todo as [|pos todo IH]; intros frontier all.
  - exists []. cbn. rewrite app_nil_r. reflexivity.
  - cbn [fold_left]. unfold pareto_step at 2.
    match goal with |- context [existsb ?f all] => destruct (existsb f all) end.
    + apply IH.
    + match goal with
      | |- context [fold_left _ todo (?f ++ [?x], ?a)] =>
          destruct (IH (f ++ [x]) a) as [added Hadd]
      end.
      exists ((pos, evaluate_objectives objectives cavity_grid molecule_grid pos)
              :: added).
      rewrite Hadd, <- app_assoc. reflexivity.
Qed.

(** X7.  The first cavity position is always returned, and first: nothing
    was evaluated before it that could dominate it, and entries are only
    ever appended.  A non-empty cavity grid therefore has a non-empty
    frontier. *)
Theorem pareto_first_position_is_kept :
  forall first_key first_voxel rest molecule_grid objectives,
    let cavity_grid := (first_key, first_voxel) :: rest in
    exists others,
      pareto_optimal_docking cavity_grid molecule_grid objectives
      = (first_key,
         evaluate_objectives objectives cavity_grid molecule_grid first_key)
        :: others.
Proof.
  intros first_key first_voxel rest molecule_grid objectives cavity_grid.
  unfold pareto_optimal_docking, pareto_run.
  change (dict_keys cavity_grid) with (first_key :: dict_keys rest).
  cbn [fold_left]. unfold pareto_step at 2.
  cbn [existsb app].
  match goal with
  | |- context [fold_left ?step ?todo ([?x], ?a)] =>
      destruct (pareto_frontier_grows cavity_grid molecule_grid objectives
                  todo [x] a) as [added Hadd]
  end.
  exists added. exact Hadd.
Qed.

(** X9.  Every returned solution is a cavity position with its own
    scores, and no position that comes before it in the cavity grid
    dominates it: a position is left out only when an earlier one dominates
    it, and a later one never removes it. *)
Theorem pareto_returned_undominated_by_earlier :
  forall cavity_grid molecule_grid objectives P,
    In P (pareto_optimal_docking cavity_grid molecule_grid objectives) ->
    exists (i : nat) (pos : position),
      nth_error (dict_keys cavity_grid) i = Some pos /\
      P = (pos, evaluate_objectives objectives cavity_grid molecule_grid pos) /\
      forall (j : nat) (earlier : position),
        (j < i)%nat ->
        nth_error (dict_keys cavity_grid) j = Some earlier ->
        dominates
          (evaluate_objectives objectives cavity_grid molecule_grid earlier)
          (snd P) = false.
Proof.
  intros cavity_grid molecule_grid objectives P HP.
  destruct (pareto_frontier_undominated_by_earlier cavity_grid molecule_grid
              objectives P HP) as (i & Hi & Hearlier).
  rewrite pareto_run_all_solutions in Hi, Hearlier.
  rewrite nth_error_map in Hi.
  destruct (nth_error (dict_keys cavity_grid) i) as [pos|] eqn:Hpos;
    [|discriminate].
  cbn [option_map] in Hi. injection Hi as HPeq. subst P.
  exists i, pos. split; [exact Hpos|]. split; [reflexivity|].
  intros j earlier Hj Hearlier_key.
  apply (Hearlier j
           (earlier,
            evaluate_objectives objectives cavity_grid molecule_grid earlier) Hj).
  rewrite nth_error_map, Hearlier_key. reflexivity.
Qed.

(** In the two-cell example of C3 the second position is returned, and the
    first does not dominate it. *)
Lemma pareto_returned_undominated_by_earlier_witness :
  let cavity_grid :=
    [((0, 0, 0), mkVoxel (0, 0, 0) "polar" 1 0.5 None);
     ((1, 0, 0), mkVoxel (1, 0, 0) "polar" 1 0.5 None)] in
  let objectives := [("x"%string, x_coordinate)] in
  let P := ((1, 0, 0), evaluate_objectives objectives cavity_grid [] (1, 0, 0)) in
  exists (i : nat) (pos : position),
    nth_error (dict_keys cavity_grid) i = Some pos /\
    P = (pos, evaluate_objectives objectives cavity_grid [] pos) /\
    forall (j : nat) (earlier : position),
      (j < i)%nat ->
      nth_error (dict_keys cavity_grid) j = Some earlier ->
      dominates (evaluate_objectives objectives cavity_grid [] earlier) (snd P)
      = false.
Proof.
  cbv zeta.
  apply (pareto_returned_undominated_by_earlier
           [((0, 0, 0), mkVoxel (0, 0, 0) "polar" 1 0.5 None);
            ((1, 0, 0), mkVoxel (1, 0, 0) "polar" 1 0.5 None)]
           [] [("x"%string, x_coordinate)]).
  right. left. reflexivity.
Defined.

Lemma dominates_no_objectives : forall other : dict string float,
  dominates other [] = false.
Proof. reflexivity. Qed.

(** X8.  Without objectives nothing dominates anything: every cavity
    position is returned, in order, each with an empty score dictionary. *)
Theorem pareto_without_objectives_returns_everything :
  forall cavity_grid molecule_grid,
    pareto_optimal_docking cavity_grid molecule_grid []
    = map (fun pos => (pos, [])) (dict_keys cavity_grid).
Proof.
  intros cavity_grid molecule_grid. unfold pareto_optimal_docking, pareto_run.
  assert (H : forall todo frontier all,
            fst (fold_left (pareto_step cavity_grid molecule_grid []) todo
                           (frontier, all))
            = frontier ++ map (fun pos => (pos, [])) todo).
  { induction todo as [|pos todo IH]; intros frontier all.
    - cbn. rewrite app_nil_r. reflexivity.
    - cbn [fold_left map]. unfold pareto_step at 2.
      unfold evaluate_objectives. cbn [map].
      match goal with
      | |- context [existsb ?f all] => assert (E : existsb f all = false)
      end.
      { induction all as [|o all IHa]; [reflexivity|].
        cbn [existsb]. rewrite dominates_no_objectives. exact IHa. }
      rewrite E, IH, <- app_assoc. reflexivity. }
  rewrite H. reflexivity.
Qed.

(** * Further properties of the torsion states *)



Lemma map_Float_injective : forall l1 l2 : list float,
  map Float l1 = map Float l2 -> l1 = l2.
Proof.
  induction l1 as [|x l1 IH]; intros [|y l2] H; try discriminate; [reflexivity|].
  cbn in H. injection H as -> H. f_equal. apply IH, H.
Qed.

(** X11.  The index of a conformational state determines the state: the
    first three components are the position and the rest are the torsion
    angles, so two states with the same index are the same state, and a
    list of distinct states has distinct indices. *)
Theorem index_determines_state :
  (forall s1 s2 : ConformationalDockingState, index s1 = index s2 -> s1 = s2) /\
  (forall s : ConformationalDockingState,
     List.length (index s) = (3 + List.length (torsion_angles s))%nat) /\
  (forall states : list ConformationalDockingState,
     NoDup states -> NoDup (map index states)).
Proof.
  assert (Hinj : forall s1 s2 : ConformationalDockingState,
            index s1 = index s2 -> s1 = s2).
  { intros [[[x1 y1] z1] a1] [[[x2 y2] z2] a2] H. unfold index in H.
    cbn [state_position torsion_angles app] in H.
    inversion H as [[Hx Hy Hz Ha]]. apply map_Float_injective in Ha.
    subst. reflexivity. }
  split; [exact Hinj|]. split.
  - intros [[[x y] z] a]. unfold index. cbn [state_position torsion_angles].
    rewrite length_app, length_map. reflexivity.
  - intros states Hnd. apply NoDup_map_NoDup_ForallPairs; [|exact Hnd].
    intros s1 s2 _ _ E. apply Hinj, E.
Qed.

(** Two states at one position that differ in one angle. *)
Lemma index_determines_state_witness :
  NoDup (map index
           [ mkConformationalDockingState (1, 2, 3) [0%float; 60%float];
             mkConformationalDockingState (1, 2, 3) [0%float; 120%float] ]).
Proof.
  apply (proj2 (proj2 index_determines_state)).
  constructor.
  - intros [H | []].
    apply (f_equal (fun s => map Prim2SF (torsion_angles s))) in H.
    vm_compute in H. discriminate.
  - constructor; [intros [] | constructor].
Defined.

(** * The other methods of [SpatialDocking] *)

Lemma align_unexpected_keyword :
  forall self cavity_grid molecule_grid compatibility_matrix,
    SpatialDocking_align self cavity_grid molecule_grid compatibility_matrix
    = Raised (TypeError
        "spatial_alignment() got an unexpected keyword argument 'max_translation'").
Proof.
  intros self cavity_grid molecule_grid cm.
  unfold SpatialDocking_align, call_spatial_alignment, bind_keywords, align_keywords.
  cbn [check_keywords]. reflexivity.
Qed.

(** X12.  [align_multiple] never returns a list of results.  With at least
    one molecule the first [align] raises its [TypeError]; with no molecule
    the list of results is empty and the final log message, which reads
    [results[0].score], raises an [IndexError]. *)
Theorem align_multiple_always_fails :
  forall self cavity_grid molecules compatibility_matrix,
    SpatialDocking_align_multiple self cavity_grid molecules compatibility_matrix
    = Failed
        match molecules with
        | [] => IndexError "list index out of range"
        | _ :: _ =>
            Builtin (TypeError
              "spatial_alignment() got an unexpected keyword argument 'max_translation'")
        end.
Proof.
  intros self cavity_grid molecules cm. unfold SpatialDocking_align_multiple.
  destruct molecules as [|molecule_grid rest].
  - reflexivity.
  - cbn [align_each]. rewrite align_unexpected_keyword. reflexivity.
Qed.

(** X13.  [visualize] never draws.  A result without its grids is refused
    with a [ValueError]; for any other result the call of
    [visualize_docking] passes the keywords [save_path] and [show_plot],
    which are not among its parameters, and raises a [TypeError] before the
    body is entered. *)
Theorem visualize_always_raises :
  forall draw self res save_path show_plot,
    SpatialDocking_visualize draw self res save_path show_plot
    = Raised
        match result_cavity_grid res, result_molecule_grid res with
        | Some _, Some _ =>
            TypeError
              "visualize_docking() got an unexpected keyword argument 'save_path'"
        | _, _ =>
            ValueError
              "Result must contain cavity_grid and molecule_grid for visualization"
        end.
Proof.
  intros draw self res save_path show_plot. unfold SpatialDocking_visualize.
  destruct (result_cavity_grid res) as [cavity_grid|];
    destruct (result_molecule_grid res) as [molecule_grid|]; reflexivity.
Qed.

(** ** The binding-site analysis *)





Lemma analysis_loop_without_matrix :
  forall res cavity_grid,
    result_compatibility_matrix res = None ->
    forall items a0,
      analysis_loop res cavity_grid items a0
      = match overlaps cavity_grid items (translation res) with
        | [] => Ok a0
        | _ :: _ =>
            Failed (AttributeError "'NoneType' object has no attribute 'get'")
        end.
Proof.
  intros res cavity_grid Hm items. induction items as [|[mol_pos mol_voxel] rest IH];
    intros a0; [reflexivity|].
  cbn [analysis_loop analysis_step]. unfold overlaps. cbn [flat_map fst snd].
  fold (overlaps cavity_grid rest (translation res)).
  destruct (grid_get cavity_grid (translate mol_pos (translation res)))
    as [cav_voxel|].
  - rewrite Hm. reflexivity.
  - cbn [app]. apply IH.
Qed.

(** X15.  For a result that carries no compatibility matrix (the default
    of the field), [get_binding_site_analysis] raises a [ValueError] when a
    grid is missing, returns the empty analysis when no molecule voxel lands
    on a cavity cell, and otherwise raises an [AttributeError] at the first
    overlap, where it calls [.get] on [None]. *)
Theorem binding_site_analysis_without_matrix :
  forall self res,
    result_compatibility_matrix res = None ->
    SpatialDocking_get_binding_site_analysis self res
    = match result_cavity_grid res, result_molecule_grid res with
      | Some cavity_grid, Some molecule_grid =>
          match overlaps cavity_grid molecule_grid (translation res) with
          | [] =>
              Ok {| total_score := score res;
                    analysis_translation := translation res;
                    interactions := [];
                    interaction_counts := [];
                    residue_contributions := [] |}
          | _ :: _ =>
              Failed (AttributeError "'NoneType' object has no attribute 'get'")
          end
      | _, _ =>
          Failed (Builtin (ValueError
            "Result must contain cavity_grid and molecule_grid for analysis"))
      end.
Proof.
  intros self res Hm. unfold SpatialDocking_get_binding_site_analysis.
  destruct (result_cavity_grid res) as [cavity_grid|]; [|reflexivity].
  destruct (result_molecule_grid res) as [molecule_grid|]; [|reflexivity].
  apply analysis_loop_without_matrix. exact Hm.
Qed.

(** One voxel on one cell, no matrix: the analysis raises. *)
Lemma binding_site_analysis_without_matrix_witness :
  SpatialDocking_get_binding_site_analysis
    (mkSpatialDocking 0.5 10 (-1) false)
    (mkDockingResult 0 (1, 0, 0) None
       (Some [((1, 0, 0), mkVoxel (1, 0, 0) "polar" 1 0.5 None)])
       (Some [((0, 0, 0), mkVoxel (0, 0, 0) "polar" 1 0.5 None)])
       None None)
  = Failed (AttributeError "'NoneType' object has no attribute 'get'").
Proof.
  apply (binding_site_analysis_without_matrix
           (mkSpatialDocking 0.5 10 (-1) false)
           (mkDockingResult 0 (1, 0, 0) None
              (Some [((1, 0, 0), mkVoxel (1, 0, 0) "polar" 1 0.5 None)])
              (Some [((0, 0, 0), mkVoxel (0, 0, 0) "polar" 1 0.5 None)])
              None None)).
  reflexivity.
Defined.

(** ** [create_test_molecule] *)

Lemma test_molecule_loop : forall l molecule,
  NoDup l ->
  (forall i, In i l -> ~ In (i, 0, 0) (dict_keys molecule)) ->
  foldM test_molecule_step l molecule
  = Returned
      (molecule
       ++ map (fun i =>
                 ((i, 0, 0),
                  mkVoxel (i, 0, 0)
                    (if i mod 2 =? 0 then "polar"%string else "hydrophobic"%string)
                    1 0.8 None))
              l).
Proof.
  intros l. induction l as [|i l IH]; intros molecule Hnd Hfresh.
  - cbn. rewrite app_nil_r. reflexivity.
  - cbn [foldM]. unfold test_molecule_step at 1.
    replace (Voxel_new (i, 0, 0)
               (if i mod 2 =? 0 then "polar"%string else "hydrophobic"%string) 1 0.8 None)
      with (Returned (mkVoxel (i, 0, 0)
               (if i mod 2 =? 0 then "polar"%string else "hydrophobic"%string) 1 0.8 None))
      by (destruct (i mod 2 =? 0); vm_compute; reflexivity).
    cbn [bind]. rewrite dict_set_fresh by (apply Hfresh; left; reflexivity).
    inversion Hnd as [|i' l' Hi Hl]; subst.
    rewrite IH.
    + rewrite <- app_assoc. reflexivity.
    + exact Hl.
    + intros j Hj Hin. unfold dict_keys in Hin. rewrite map_app in Hin.
      apply in_app_or in Hin. destruct Hin as [Hin | Hin].
      * apply (Hfresh j); [right; exact Hj | exact Hin].
      * cbn in Hin. destruct Hin as [E | []]. inversion E. subst. contradiction.
Qed.

Lemma line_lookup : forall (voxel_at : Z -> Voxel) l i,
  In i l ->
  grid_get (map (fun j => ((j, 0, 0), voxel_at j)) l) (i, 0, 0)
  = Some (voxel_at i).
Proof.
  intros voxel_at l i. unfold grid_get.
  induction l as [|j l IH]; intros Hin; [contradiction|].
  cbn [map dict_get].
  destruct (position_eqb (j, 0, 0) (i, 0, 0)) eqn:E.
  - apply position_eqb_eq in E. inversion E. reflexivity.
  - destruct Hin as [-> | Hin].
    + rewrite position_eqb_refl in E. discriminate.
    + apply IH. exact Hin.
Qed.

(** X16.  [create_test_molecule(length)] never raises: it returns a grid
    of [max(length, 0)] voxels on the positions [(i, 0, 0)],
    [0 <= i < length], in this order, and the voxel at [(i, 0, 0)] is polar
    for even [i] and hydrophobic for odd [i], with accessibility 1.0 and
    flexibility 0.8.  The positions are the floats [float(i)], which are
    exact, and so distinct, up to [2 ** 53]. *)
Theorem create_test_molecule_line :
  forall length,
    length <= 2 ^ 53 ->
    exists molecule,
      create_test_molecule length = Returned molecule /\
      dict_keys molecule = map (fun i => (i, 0, 0)) (range length) /\
      List.length molecule = Z.to_nat length /\
      forall i, 0 <= i < length ->
        grid_get molecule (i, 0, 0)
        = Some (mkVoxel (i, 0, 0)
                  (if Z.even i then "polar" else "hydrophobic")%string 1 0.8 None).
Proof.
  intros length _. unfold create_test_molecule.
  rewrite test_molecule_loop; [|apply range_NoDup | intros i _ []].
  cbn [app]. eexists. split; [reflexivity|]. split; [|split].
  - unfold dict_keys. rewrite map_map. reflexivity.
  - rewrite length_map. apply range_length.
  - intros i Hi.
    rewrite (line_lookup
               (fun j => mkVoxel (j, 0, 0)
                           (if j mod 2 =? 0 then "polar"%string else "hydrophobic"%string)
                           1 0.8 None))
      by (apply range_In; exact Hi).
    rewrite Zeven_mod. reflexivity.
Qed.

(** The default molecule of five voxels. *)
Lemma create_test_molecule_line_witness :
  exists molecule,
    create_test_molecule 5 = Returned molecule /\
    dict_keys molecule = map (fun i => (i, 0, 0)) (range 5) /\
    List.length molecule = Z.to_nat 5 /\
    forall i, 0 <= i < 5 ->
      grid_get molecule (i, 0, 0)
      = Some (mkVoxel (i, 0, 0)
                (if Z.even i then "polar" else "hydrophobic")%string 1 0.8 None).
Proof. apply (create_test_molecule_line 5). vm_compute. discriminate. Defined.

(** ** [timp2_specific_bonus] *)

(** X17.  [timp2_specific_bonus] returns one of 0.0, 2.5, 2.0, -3.0 and
    -0.5: the two bonuses exclude each other, and the penalty can only meet
    the bonus of 2.5.  The result is negative only for a charged molecule
    voxel on a hydrophobic cavity cell, and it is 0.0 for every molecule
    voxel whose type is none of polar, hydrophobic and charged. *)
Theorem timp2_specific_bonus_values :
  forall mol_voxel cavity_voxel,
    In (timp2_specific_bonus mol_voxel cavity_voxel)
       [0; 2.5; 2; -3; -0.5]%float /\
    ((timp2_specific_bonus mol_voxel cavity_voxel <? 0)%float = true ->
     property_type cavity_voxel = "hydrophobic"%string /\
     string_in (property_type mol_voxel) ["charged_pos"; "charged_neg"]%string
     = true) /\
    (string_in (property_type mol_voxel)
               ["polar"; "hydrophobic"; "charged_pos"; "charged_neg"]%string = false ->
     timp2_specific_bonus mol_voxel cavity_voxel = 0%float).
Proof.
  intros [mol_pos mol_type mol_acc mol_flex mol_res]
         [cav_pos cav_type cav_acc cav_flex cav_res].
  unfold timp2_specific_bonus, residue_in, residue_is, string_in.
  cbn [nearby_residue property_type existsb].
  destruct cav_res as [r|];
    repeat match goal with
           | |- context [String.eqb ?a ?b] =>
               destruct (String.eqb_spec a b)
           end;
    try congruence;
    cbn [andb orb];
    (split; [|split]);
    try (intros H; vm_compute in H; try discriminate H);
    try (split; [assumption || reflexivity | reflexivity]);
    try reflexivity;
    try (vm_compute; repeat (first [left; reflexivity | right])).
Qed.

(** ** The positions of the Boltzmann ensemble *)

(** X18.  Whenever [boltzmann_ensemble_docking] returns, at any
    temperature and with any [np.exp], the dictionary of probabilities has
    exactly the positions of the score landscape, in the landscape's order:
    every position gets a probability and none is added. *)
Theorem boltzmann_keeps_the_positions :
  forall np_exp all_paths cavity_grid molecule_grid (T : float) probabilities,
    NoDup (dict_keys (all_paths cavity_grid molecule_grid)) ->
    boltzmann_ensemble_docking (float_arithmetic np_exp) all_paths
      cavity_grid molecule_grid T = Returned probabilities ->
    dict_keys probabilities = dict_keys (all_paths cavity_grid molecule_grid).
Proof.
  intros np_exp all_paths cavity_grid molecule_grid T probabilities Hnd Hrun.
  destruct (0.0019872041 * T =? 0)%float eqn:HkT.
  - destruct (all_paths cavity_grid molecule_grid) as [|item rest] eqn:Hpaths.
    + unfold boltzmann_ensemble_docking in Hrun. rewrite Hpaths in Hrun.
      cbn in Hrun. inversion Hrun. reflexivity.
    + destruct (boltzmann_raises_on_zero_kT np_exp all_paths cavity_grid
                  molecule_grid T HkT) as [e He].
      * rewrite Hpaths. discriminate.
      * rewrite He in Hrun. discriminate.
  - rewrite (float_boltzmann_formula np_exp all_paths cavity_grid molecule_grid T
               Hnd HkT) in Hrun.
    inversion Hrun. unfold boltzmann_spec, dict_keys. rewrite map_map.
    reflexivity.
Qed.

(** Two positions at 300 K. *)
Lemma boltzmann_keeps_the_positions_witness :
  let all_paths := fun _ _ : VoxelGrid => [((0, 0, 0), 1%float); ((1, 0, 0), 2%float)] in
  exists probabilities,
    boltzmann_ensemble_docking (float_arithmetic exp_approx) all_paths [] []
      300%float
    = Returned probabilities /\
    dict_keys probabilities = [(0, 0, 0); (1, 0, 0)].
Proof.
  cbv zeta. eexists. split; [reflexivity|].
  apply (boltzmann_keeps_the_positions exp_approx
           (fun _ _ : VoxelGrid => [((0, 0, 0), 1%float); ((1, 0, 0), 2%float)])
           [] [] 300%float).
  - repeat constructor; cbn; intuition discriminate.
  - reflexivity.
Defined.

(** ** [create_synthetic_cavity] *)

Lemma range_positive : forall n, 0 < n -> exists l, range n = 0 :: l.
Proof.
  intros n Hn. unfold range.
  destruct (Z.to_nat n) as [|k] eqn:E; [lia|].
  cbn [seq map]. eexists. reflexivity.
Qed.

Lemma range_empty : forall n, n <= 0 -> range n = [].
Proof.
  intros n Hn. unfold range. replace (Z.to_nat n) with 0%nat by lia. reflexivity.
Qed.

Lemma foldM_skip : forall {S X : Type} (f : S -> X -> outcome S) l s,
  (forall s x, f s x = Returned s) -> foldM f l s = Returned s.
Proof.
  intros S X f l s Hf. induction l as [|x l IH]; [reflexivity|].
  cbn [foldM]. rewrite Hf. cbn [bind]. exact IH.
Qed.

(** X19.  With a pattern other than 'checkerboard', 'layered' and
    'random', [create_synthetic_cavity] raises its [ValueError] only when
    the grid has a cell: the pattern is looked at inside the loops, so a
    size with a dimension of 0 or less returns the empty cavity for any
    pattern. *)
Theorem create_synthetic_cavity_unknown_pattern :
  forall (rng : Type) np_random_seed np_random_choice np_random_random
         size0 size1 size2 pattern (g : rng),
    pattern <> "checkerboard"%string ->
    pattern <> "layered"%string ->
    pattern <> "random"%string ->
    create_synthetic_cavity rng np_random_seed np_random_choice np_random_random
      (size0, size1, size2) pattern g
    = if (0 <? size0) && (0 <? size1) && (0 <? size2)
      then Raised (ValueError ("Unknown pattern: " ++ pattern))
      else Returned [].
Proof.
  intros rng seed choice random size0 size1 size2 pattern g Hc Hl Hr.
  unfold create_synthetic_cavity.
  destruct (Z.ltb_spec 0 size0) as [H0 | H0]; cbn [andb].
  - destruct (Z.ltb_spec 0 size1) as [H1 | H1]; cbn [andb].
    + destruct (Z.ltb_spec 0 size2) as [H2 | H2].
      * destruct (range_positive size0 H0) as [l0 ->].
        destruct (range_positive size1 H1) as [l1 ->].
        destruct (range_positive size2 H2) as [l2 ->].
        cbn [foldM]. unfold cavity_step at 1, cavity_property_type.
        apply String.eqb_neq in Hc, Hl, Hr. rewrite Hc, Hl, Hr. reflexivity.
      * rewrite (range_empty size2 H2). cbn [foldM].
        rewrite foldM_skip; [reflexivity|].
        intros s x. apply foldM_skip. reflexivity.
    + rewrite (range_empty size1 H1). cbn [foldM].
      rewrite foldM_skip; reflexivity.
  - rewrite (range_empty size0 H0). reflexivity.
Qed.

(** The default size with an unknown pattern raises; a flat grid does not. *)
Lemma create_synthetic_cavity_unknown_pattern_witness :
  create_synthetic_cavity unit (fun _ => Returned tt)
    (fun _ g => ("polar"%string, g)) (fun g => (0.5%float, g))
    (10, 10, 8) "spiral" tt
  = Raised (ValueError "Unknown pattern: spiral")
  /\
  create_synthetic_cavity unit (fun _ => Returned tt)
    (fun _ g => ("polar"%string, g)) (fun g => (0.5%float, g))
    (10, 10, 0) "spiral" tt
  = Returned [].
Proof.
  split.
  - apply (create_synthetic_cavity_unknown_pattern unit (fun _ => Returned tt)
             (fun _ g => ("polar"%string, g)) (fun g => (0.5%float, g))
             10 10 8 "spiral" tt); discriminate.
  - apply (create_synthetic_cavity_unknown_pattern unit (fun _ => Returned tt)
             (fun _ g => ("polar"%string, g)) (fun g => (0.5%float, g))
             10 10 0 "spiral" tt); discriminate.
Defined.
